(** * Subscription cron jobs (scripts/subscription_cron.py)

    A shallow embedding of the recurring-billing engine: the PostgreSQL tables
    the script reads and writes, the Netopia gateway client, and the three
    jobs of [SubscriptionCronManager].

    Conventions.
    - A table is the list of its rows, in storage order; a statement with
      [WHERE id = $1] touches every row carrying that id.  Primary and foreign
      keys are declared in the database schema, which is not part of the
      script; where a property depends on them they appear as hypotheses.
    - Timestamps are integers (seconds).  [NOW()] is the database clock and
      [datetime.now()] the clock of the Python process; both are read from
      the environment, one reading per interaction.
    - Python exceptions are values; a computation either returns or raises.
    - Statements sent to the database are assumed to execute: connection
      loss and constraint violations are outside the model, except for the
      scalar subquery of [cancel_subscription], whose cardinality error
      depends only on the data, and for the [netopia_order_id] argument of
      [update_order_status] and [log_payment_event], which the driver
      encodes as text and refuses when it is neither [None] nor a [str]. *)

From Stdlib Require Import ZArith List String Ascii Bool Lia.
From Stdlib Require Import Sorting.Sorted Sorting.Permutation.
From Stdlib Require Import DecimalString.
Import ListNotations.

Local Open Scope string_scope.
Local Open Scope Z_scope.

(** ** Python values that occur in the script *)

(** A decoded JSON document, as [response.json()] returns it. *)
Local Unset Elimination Schemes.
Inductive Json : Type :=
| JNull
| JBool (b : bool)
| JNum (n : Z)
| JStr (s : string)
| JArr (items : list Json)
| JObj (fields : list (string * Json)).
Local Set Elimination Schemes.

(** A decoded object, a Python [dict], kept as the list of its members. *)
Definition JsonObject : Type := list (string * Json).

(** [d.get(k)] on a decoded object; [None] when the key is absent. *)
Fixpoint json_get (k : string) (d : JsonObject) : option Json :=
  match d with
  | [] => None
  | (k', v) :: d' => if String.eqb k k' then Some v else json_get k d'
  end.

(** An exception object: its class and [str(e)]. *)
Record PyExc : Type := mkExc { exc_class : string; exc_str : string }.

(** [type(v).__name__] of a decoded value; JSON null decodes to [None]. *)
Definition type_name (v : Json) : string :=
  match v with
  | JNull => "NoneType"
  | JBool _ => "bool"
  | JNum _ => "int"
  | JStr _ => "str"
  | JArr _ => "list"
  | JObj _ => "dict"
  end.

(** What [v.get(...)] raises when [v] is not a [dict]. *)
Definition no_get (v : Json) : PyExc :=
  mkExc "AttributeError"
        ("'" ++ type_name v ++ "' object has no attribute 'get'").

(** A Python value bound to a text column.  Python's [None] is written
    [None] when a key is absent or an argument is left out and [Some JNull]
    when it is a decoded JSON null; it is stored as NULL.  A [str] is stored
    as itself, and the driver encodes nothing else. *)
Definition text_id (v : option Json) : option (option string) :=
  match v with
  | None | Some JNull => Some None
  | Some (JStr s) => Some (Some s)
  | Some _ => None
  end.

Inductive Result (A : Type) : Type :=
| Ok (a : A)
| Raise (e : PyExc).
Arguments Ok {A} a.
Arguments Raise {A} e.

(** [timedelta(days=n)] in seconds. *)
Definition days (n : Z) : Z := n * 86400.
Definition hours (n : Z) : Z := n * 3600.

(** Decimal rendering of [len(...)] and of counters inside f-strings. *)
Definition str_nat (n : nat) : string := NilZero.string_of_uint (Nat.to_uint n).
Definition str_Z (z : Z) : string := NilZero.string_of_int (Z.to_int z).

(** ** Tables *)

Record Subscription : Type := mkSubscription {
  sub_id : string;
  sub_user_id : string;
  sub_tier_id : string;
  sub_status : string;
  sub_auto_renew : bool;
  sub_current_period_start : option Z;
  sub_current_period_end : option Z;
  sub_trial_end : option Z;
  sub_netopia_token : option string;
  sub_cancel_effective_at : option Z;
  sub_updated_at : option Z
}.

Record SubscriptionTier : Type := mkTier {
  tier_id : string;
  tier_name : string;
  tier_price : Z;
  tier_currency : string;
  tier_interval : string
}.

(** [metadata] of a renewal order, the object passed to [json.dumps]. *)
Record OrderMetadata : Type := mkMetadata {
  md_subscription_id : string;
  md_tier_name : string;
  md_renewal : bool;
  md_auto_renewal : bool
}.

Record Order : Type := mkOrder {
  order_id : string;
  order_user_id : string;
  order_subscription_id : option string;
  order_amount : Z;
  order_currency : string;
  order_status : string;
  order_netopia_order_id : option string;
  order_metadata : option OrderMetadata;
  order_created_at : option Z;
  order_updated_at : option Z
}.

Record Profile : Type := mkProfile {
  profile_id : string;
  profile_subscription_tier : string;
  profile_updated_at : option Z
}.

(** A row of the renewal and trial queues:
    [SELECT s.*, st.price, st.currency, st.interval, st.name as tier_name]. *)
Record SubscriptionRow : Type := mkRow {
  row_sub : Subscription;
  row_price : Z;
  row_currency : string;
  row_interval : string;
  row_tier_name : string
}.

(** A row of the retry queue, [SELECT pl.*, o.*, s.*] over
    [payment_logs JOIN orders LEFT JOIN subscriptions]: the columns of the
    event the script reads, the order, and the subscription when the order
    has one.  The stored payload text of the event is a plain [str] in the
    row and is not tracked. *)
Record FailedPayment : Type := mkFailed {
  fp_order_id : option string;
  fp_subscription_id : option string;
  fp_event_type : option string;
  fp_retry_count : Z;
  fp_created_at : Z;
  fp_order : Order;
  fp_subscription : option Subscription
}.

(** The Python object handed to [json.dumps] as [raw_payload]; the column
    keeps the document it encodes. *)
Inductive RawPayload : Type :=
| PayloadEmpty
| PayloadResponse (result : Json)
| PayloadCancel (reason : string) (auto_cancel : bool)
| PayloadSubscription (subscription : SubscriptionRow)
| PayloadOriginalPayment (payment : FailedPayment).

Record PaymentLog : Type := mkLog {
  pl_order_id : option string;
  pl_subscription_id : option string;
  pl_event_type : option string;
  pl_netopia_order_id : option string;
  pl_amount : option Z;
  pl_currency : option string;
  pl_status : option string;
  pl_raw_payload : RawPayload;
  pl_retry_count : Z;
  pl_error_message : option string;
  pl_processing_time_ms : option Z;
  pl_created_at : Z
}.

(** The [event_data] dict of [log_payment_event]; an absent key is [None].
    [netopia_order_id] holds whatever the reply of the gateway gave. *)
Record EventData : Type := mkEvent {
  ev_order_id : option string;
  ev_subscription_id : option string;
  ev_event_type : option string;
  ev_netopia_order_id : option Json;
  ev_amount : option Z;
  ev_currency : option string;
  ev_status : option string;
  ev_raw_payload : option RawPayload;
  ev_retry_count : option Z;
  ev_error_message : option string;
  ev_processing_time_ms : option Z
}.

(** ** The gateway *)

(** [billing_info] and [order_data] of [_process_subscription_renewal]. *)
Record BillingInfo : Type := mkBilling {
  bi_type : string;
  bi_first_name : string;
  bi_last_name : string;
  bi_email : string;
  bi_mobile_phone : string
}.

Record OrderData : Type := mkOrderData {
  od_order_id : string;
  od_subscription_id : string;
  od_amount : Z;
  od_currency : string;
  od_billing_info : BillingInfo
}.

(** The POST of [create_recurring_payment]: the order it encrypts and signs,
    the two timestamps it takes, and the [timeout] argument. *)
Record PostRequest : Type := mkPost {
  post_order : OrderData;
  post_order_timestamp_ms : Z;
  post_timestamp : Z;
  post_timeout : Z
}.

(** What the HTTP layer does with one POST: the request raises, or the
    response arrives and [response.json()] raises, or it returns the decoded
    body, which is any JSON value ([None] for an empty body). *)
Inductive HttpOutcome : Type :=
| PostRaises (e : PyExc)
| JsonRaises (status : Z) (e : PyExc)
| Responded (status : Z) (body : Json).

(** ** Configuration, environment and state *)

Record Config : Type := mkConfig {
  max_retry_attempts : Z;
  retry_delay_seconds : Z;
  trial_grace_period_hours : Z
}.

(** [Config] defaults. *)
Definition default_config : Config :=
  {| max_retry_attempts := 3; retry_delay_seconds := 300;
     trial_grace_period_hours := 24 |}.

(** Everything the script asks of the outside world; [k] counts the
    interactions of the run so far.  [driver_error n v] is the exception of
    the database driver when query argument [$n], bound to a text column, is
    the value [v]. *)
Record Env : Type := mkEnv {
  db_now : nat -> Z;
  py_now : nat -> Z;
  db_new_id : nat -> string;
  netopia_post : nat -> PostRequest -> HttpOutcome;
  py_str : Json -> string;
  driver_error : Z -> Json -> PyExc
}.

Inductive LogLevel : Type := INFO | ERROR.

Record World : Type := mkWorld {
  subscriptions : list Subscription;
  subscription_tiers : list SubscriptionTier;
  orders : list Order;
  payment_logs : list PaymentLog;
  profiles : list Profile;
  netopia_requests : list PostRequest;
  logger : list (LogLevel * string);
  ticks : nat
}.

(** ** Computations: state and exceptions *)

Definition M (A : Type) : Type := World -> Result A * World.

Definition ret {A} (a : A) : M A := fun w => (Ok a, w).

Definition raise {A} (e : PyExc) : M A := fun w => (Raise e, w).

Definition bind {A B} (m : M A) (k : A -> M B) : M B :=
  fun w =>
    match m w with
    | (Ok a, w') => k a w'
    | (Raise e, w') => (Raise e, w')
    end.

(** [try: body / except Exception as e: handler]. *)
Definition try_except {A} (body : M A) (handler : PyExc -> M A) : M A :=
  fun w =>
    match body w with
    | (Ok a, w') => (Ok a, w')
    | (Raise e, w') => handler e w'
    end.

Declare Scope py_scope.
Delimit Scope py_scope with py.
Notation "x <- m ;; k" := (bind m (fun x => k))
  (at level 61, m at next level, right associativity) : py_scope.
Notation "m ;; k" := (bind m (fun _ => k))
  (at level 61, right associativity) : py_scope.
Local Open Scope py_scope.

(** [for x in xs: body]; an exception leaving [body] leaves the loop. *)
Fixpoint for_each {A} (xs : list A) (body : A -> M unit) : M unit :=
  match xs with
  | [] => ret tt
  | x :: xs' => body x ;; for_each xs' body
  end.

Definition set_subscriptions (l : list Subscription) (w : World) : World :=
  mkWorld l (subscription_tiers w) (orders w) (payment_logs w) (profiles w)
          (netopia_requests w) (logger w) (ticks w).

Definition set_orders (l : list Order) (w : World) : World :=
  mkWorld (subscriptions w) (subscription_tiers w) l (payment_logs w)
          (profiles w) (netopia_requests w) (logger w) (ticks w).

Definition set_payment_logs (l : list PaymentLog) (w : World) : World :=
  mkWorld (subscriptions w) (subscription_tiers w) (orders w) l (profiles w)
          (netopia_requests w) (logger w) (ticks w).

Definition set_profiles (l : list Profile) (w : World) : World :=
  mkWorld (subscriptions w) (subscription_tiers w) (orders w) (payment_logs w)
          l (netopia_requests w) (logger w) (ticks w).

Definition set_netopia_requests (l : list PostRequest) (w : World) : World :=
  mkWorld (subscriptions w) (subscription_tiers w) (orders w) (payment_logs w)
          (profiles w) l (logger w) (ticks w).

Definition set_logger (l : list (LogLevel * string)) (w : World) : World :=
  mkWorld (subscriptions w) (subscription_tiers w) (orders w) (payment_logs w)
          (profiles w) (netopia_requests w) l (ticks w).

Definition tick (w : World) : World :=
  mkWorld (subscriptions w) (subscription_tiers w) (orders w) (payment_logs w)
          (profiles w) (netopia_requests w) (logger w) (S (ticks w)).

Definition logger_info (msg : string) : M unit :=
  fun w => (Ok tt, set_logger (logger w ++ [(INFO, msg)]) w).

Definition logger_error (msg : string) : M unit :=
  fun w => (Ok tt, set_logger (logger w ++ [(ERROR, msg)]) w).

(** ** [json.dumps] on the payloads of the script *)

(** [dict(row)]: a later column replaces an earlier one of the same name. *)
Fixpoint has_key {V} (k : string) (items : list (string * V)) : bool :=
  match items with
  | [] => false
  | (k', _) :: rest => String.eqb k k' || has_key k rest
  end.

Fixpoint dict_of_items {V} (items : list (string * V)) : list (string * V) :=
  match items with
  | [] => []
  | (k, v) :: rest =>
      if has_key k rest then dict_of_items rest else (k, v) :: dict_of_items rest
  end.

(** The timestamp columns of a row in [SELECT] order.  The driver decodes a
    non-null timestamp as a [datetime] object and every other column of the
    tables as [str], [int], [bool] or [None]. *)
Definition subscription_timestamps (s : Subscription) : list (string * option Z) :=
  [("current_period_start", sub_current_period_start s);
   ("current_period_end", sub_current_period_end s);
   ("trial_end", sub_trial_end s);
   ("cancel_effective_at", sub_cancel_effective_at s);
   ("updated_at", sub_updated_at s)].

Definition order_timestamps (o : Order) : list (string * option Z) :=
  [("created_at", order_created_at o); ("updated_at", order_updated_at o)].

Definition failed_payment_timestamps (p : FailedPayment) : list (string * option Z) :=
  [("created_at", Some (fp_created_at p))]
  ++ order_timestamps (fp_order p)
  ++ match fp_subscription p with
     | Some s => subscription_timestamps s
     | None => map (fun kv => (fst kv, None))
                   (subscription_timestamps
                      (mkSubscription "" "" "" "" false None None None None None None))
     end.

Definition is_null {V} (v : option V) : bool :=
  match v with None => true | Some _ => false end.

Definition no_datetime (items : list (string * option Z)) : bool :=
  forallb (fun kv => is_null (snd kv)) (dict_of_items items).

(** Whether the default encoder accepts the object. *)
Definition json_serializable (p : RawPayload) : bool :=
  match p with
  | PayloadEmpty => true
  | PayloadResponse _ => true
  | PayloadCancel _ _ => true
  | PayloadSubscription r => no_datetime (subscription_timestamps (row_sub r))
  | PayloadOriginalPayment f => no_datetime (failed_payment_timestamps f)
  end.

Definition json_dumps (p : RawPayload) : Result RawPayload :=
  if json_serializable p then Ok p
  else Raise (mkExc "TypeError" "Object of type datetime is not JSON serializable").

(** ** SQL helpers *)

(** [a <= b] on timestamps as [ORDER BY ... ASC] compares them: nulls last. *)
Definition ts_leb (a b : option Z) : bool :=
  match a, b with
  | Some x, Some y => x <=? y
  | Some _, None => true
  | None, Some _ => false
  | None, None => true
  end.

Fixpoint insert_by {A} (key : A -> option Z) (x : A) (l : list A) : list A :=
  match l with
  | [] => [x]
  | y :: l' => if ts_leb (key x) (key y) then x :: l else y :: insert_by key x l'
  end.

(** [ORDER BY key ASC].  Rows with equal keys are kept here in storage
    order; SQL leaves their order to the query plan. *)
Fixpoint order_by {A} (key : A -> option Z) (l : list A) : list A :=
  match l with
  | [] => []
  | x :: l' => insert_by key x (order_by key l')
  end.

(** [col <= NOW()] and [col >= t]: a null column satisfies neither. *)
Definition ts_at_or_before (col : option Z) (now : Z) : bool :=
  match col with Some t => t <=? now | None => false end.

Definition opt_string_eqb (a : option string) (b : string) : bool :=
  match a with Some x => String.eqb x b | None => false end.

(** [FROM subscriptions s JOIN subscription_tiers st ON s.tier_id = st.id]. *)
Definition join_tier (tiers : list SubscriptionTier) (s : Subscription)
  : list SubscriptionRow :=
  map (fun st => mkRow s (tier_price st) (tier_currency st) (tier_interval st)
                       (tier_name st))
      (filter (fun st => String.eqb (sub_tier_id s) (tier_id st)) tiers).

Definition subscriptions_with_tier (w : World) : list SubscriptionRow :=
  flat_map (join_tier (subscription_tiers w)) (subscriptions w).

Definition due_where (now : Z) (r : SubscriptionRow) : bool :=
  String.eqb (sub_status (row_sub r)) "ACTIVE"
  && Bool.eqb (sub_auto_renew (row_sub r)) true
  && ts_at_or_before (sub_current_period_end (row_sub r)) now
  && negb (is_null (sub_netopia_token (row_sub r))).

Definition trial_where (now : Z) (r : SubscriptionRow) : bool :=
  String.eqb (sub_status (row_sub r)) "TRIALING"
  && ts_at_or_before (sub_trial_end (row_sub r)) now.

(** [FROM payment_logs pl JOIN orders o ON pl.order_id = o.id
     LEFT JOIN subscriptions s ON o.subscription_id = s.id].
    In [dict(row)] the key [subscription_id] holds the column of [orders],
    which comes after the one of [payment_logs]. *)
Definition join_failed (w : World) (pl : PaymentLog) : list FailedPayment :=
  flat_map
    (fun o =>
       let row := mkFailed (pl_order_id pl) (order_subscription_id o)
                           (pl_event_type pl) (pl_retry_count pl)
                           (pl_created_at pl) o in
       match filter (fun s => opt_string_eqb (order_subscription_id o) (sub_id s))
                    (subscriptions w) with
       | [] => [row None]
       | ss => map (fun s => row (Some s)) ss
       end)
    (filter (fun o => opt_string_eqb (pl_order_id pl) (order_id o)) (orders w)).

Definition failed_where (max_attempts now : Z) (p : FailedPayment) : bool :=
  opt_string_eqb (fp_event_type p) "PAYMENT_FAILED"
  && (fp_retry_count p <? max_attempts)
  && (now - hours 24 <=? fp_created_at p).

Section Cron.

Variable env : Env.
Variable config : Config.

(** [str(v)] of a decoded JSON value inside an f-string. *)
Definition str_json (v : Json) : string :=
  match v with
  | JStr s => s
  | JNull => "None"
  | JBool true => "True"
  | JBool false => "False"
  | JNum n => str_Z n
  | JArr _ | JObj _ => py_str env v
  end.

(** [datetime.now()]. *)
Definition datetime_now : M Z :=
  fun w => (Ok (py_now env (ticks w)), tick w).

(** [v.get(k)] on the result of [create_recurring_payment]. *)
Definition dict_get (v : Json) (k : string) : M (option Json) :=
  match v with
  | JObj fields => ret (json_get k fields)
  | _ => raise (no_get v)
  end.

(** Query argument [$position], bound to a text column. *)
Definition text_param (position : Z) (v : option Json) : Result (option string) :=
  match text_id v with
  | Some x => Ok x
  | None =>
      Raise (driver_error env position
                          (match v with Some j => j | None => JNull end))
  end.

(** ** DatabaseManager *)

Definition get_due_subscriptions : M (list SubscriptionRow) :=
  fun w =>
    let now := db_now env (ticks w) in
    (Ok (order_by (fun r => sub_current_period_end (row_sub r))
                  (filter (due_where now) (subscriptions_with_tier w))),
     tick w).

Definition get_trial_subscriptions : M (list SubscriptionRow) :=
  fun w =>
    let now := db_now env (ticks w) in
    (Ok (order_by (fun r => sub_trial_end (row_sub r))
                  (filter (trial_where now) (subscriptions_with_tier w))),
     tick w).

(** [max_retry_attempts] is argument [$1], compared with the integer column
    [retry_count]; it is taken to be in the range of that column. *)
Definition get_failed_payments : M (list FailedPayment) :=
  fun w =>
    let now := db_now env (ticks w) in
    (Ok (order_by (fun p => Some (fp_created_at p))
                  (filter (failed_where (max_retry_attempts config) now)
                          (flat_map (join_failed w) (payment_logs w)))),
     tick w).

Definition create_renewal_order (subscription : SubscriptionRow) (amount : Z)
  : M string :=
  fun w =>
    let now := db_now env (ticks w) in
    let metadata :=
      {| md_subscription_id := sub_id (row_sub subscription);
         md_tier_name := row_tier_name subscription;
         md_renewal := true;
         md_auto_renewal := true |} in
    let new_id := db_new_id env (ticks w) in
    let o :=
      {| order_id := new_id;
         order_user_id := sub_user_id (row_sub subscription);
         order_subscription_id := Some (sub_id (row_sub subscription));
         order_amount := amount;
         order_currency := row_currency subscription;
         order_status := "PENDING";
         order_netopia_order_id := None;
         order_metadata := Some metadata;
         order_created_at := Some now;
         order_updated_at := Some now |} in
    (Ok new_id, tick (set_orders (orders w ++ [o]) w)).

Definition set_period (now new_period_end : Z) (s : Subscription) : Subscription :=
  mkSubscription (sub_id s) (sub_user_id s) (sub_tier_id s) (sub_status s)
                 (sub_auto_renew s) (Some now) (Some new_period_end)
                 (sub_trial_end s) (sub_netopia_token s)
                 (sub_cancel_effective_at s) (Some now).

Definition update_subscription_period (subscription_id : string)
           (new_period_end : Z) : M unit :=
  fun w =>
    let now := db_now env (ticks w) in
    (Ok tt,
     tick (set_subscriptions
             (map (fun s => if String.eqb (sub_id s) subscription_id
                            then set_period now new_period_end s else s)
                  (subscriptions w)) w)).

Definition log_payment_event (event_data : EventData) : M unit :=
  fun w =>
    match json_dumps (match ev_raw_payload event_data with
                      | Some p => p
                      | None => PayloadEmpty
                      end) with
    | Raise e => (Raise e, w)
    | Ok doc =>
        match text_param 4 (ev_netopia_order_id event_data) with
        | Raise e => (Raise e, w)
        | Ok netopia_order_id =>
            let row :=
              {| pl_order_id := ev_order_id event_data;
                 pl_subscription_id := ev_subscription_id event_data;
                 pl_event_type := ev_event_type event_data;
                 pl_netopia_order_id := netopia_order_id;
                 pl_amount := ev_amount event_data;
                 pl_currency := ev_currency event_data;
                 pl_status := ev_status event_data;
                 pl_raw_payload := doc;
                 pl_retry_count := match ev_retry_count event_data with
                                   | Some n => n
                                   | None => 0
                                   end;
                 pl_error_message := ev_error_message event_data;
                 pl_processing_time_ms := ev_processing_time_ms event_data;
                 pl_created_at := db_now env (ticks w) |} in
            (Ok tt, tick (set_payment_logs (payment_logs w ++ [row]) w))
        end
    end.

Definition set_order_status (now : Z) (status : string)
           (netopia_order_id : option string) (o : Order) : Order :=
  mkOrder (order_id o) (order_user_id o) (order_subscription_id o)
          (order_amount o) (order_currency o) status netopia_order_id
          (order_metadata o) (order_created_at o) (Some now).

(** [netopia_order_id] is the Python value the caller passes, [None] by
    default; the statement is sent only when the driver can encode it. *)
Definition update_order_status (oid : string) (status : string)
           (netopia_order_id : option Json) : M unit :=
  fun w =>
    let now := db_now env (ticks w) in
    match text_param 3 netopia_order_id with
    | Raise e => (Raise e, w)
    | Ok stored =>
        (Ok tt,
         tick (set_orders
                 (map (fun o => if String.eqb (order_id o) oid
                                then set_order_status now status stored o
                                else o)
                      (orders w)) w))
    end.

Definition set_canceled (now : Z) (s : Subscription) : Subscription :=
  mkSubscription (sub_id s) (sub_user_id s) (sub_tier_id s) "CANCELED"
                 (sub_auto_renew s) (sub_current_period_start s)
                 (sub_current_period_end s) (sub_trial_end s)
                 (sub_netopia_token s) (Some now) (Some now).

Definition set_free (now : Z) (p : Profile) : Profile :=
  mkProfile (profile_id p) "free" (Some now).

(** The empty [event_data]. *)
Definition no_event : EventData :=
  mkEvent None None None None None None None None None None None.

Definition cancel_subscription (subscription_id : string) (reason : string)
  : M unit :=
  (fun w =>
     let now := db_now env (ticks w) in
     (Ok tt,
      tick (set_subscriptions
              (map (fun s => if String.eqb (sub_id s) subscription_id
                             then set_canceled now s else s)
                   (subscriptions w)) w))) ;;
  (fun w =>
     let now := db_now env (ticks w) in
     match filter (fun s => String.eqb (sub_id s) subscription_id)
                  (subscriptions w) with
     | [] => (Ok tt, tick w)
     | [s] =>
         (Ok tt,
          tick (set_profiles
                  (map (fun p => if String.eqb (profile_id p) (sub_user_id s)
                                 then set_free now p else p)
                       (profiles w)) w))
     | _ :: _ :: _ =>
         (Raise (mkExc "CardinalityViolationError"
                   "more than one row returned by a subquery used as an expression"),
          tick w)
     end) ;;
  log_payment_event
    (mkEvent None (Some subscription_id) (Some "SUBSCRIPTION_CANCELED") None
             None None (Some "CANCELED")
             (Some (PayloadCancel reason true)) None None None).

(** ** NetopiaClient *)

(** [self.session.post(...)] followed by [response.json()]. *)
Definition session_post (req : PostRequest) : M HttpOutcome :=
  fun w =>
    (Ok (netopia_post env (ticks w) req),
     tick (set_netopia_requests (netopia_requests w ++ [req]) w)).

(** Encryption and signature are functions of the order and the timestamps
    carried by the request; they are assumed not to raise. *)
Definition create_recurring_payment (order_data : OrderData) : M Json :=
  try_except
    (order_timestamp <- datetime_now ;;
     timestamp <- datetime_now ;;
     outcome <- session_post (mkPost order_data (order_timestamp * 1000)
                                     timestamp 30) ;;
     match outcome with
     | PostRaises e => raise e
     | JsonRaises _ e => raise e
     | Responded status result =>
         if negb (status =? 200)
         then
           match result with
           | JObj fields =>
               raise (mkExc "Exception"
                        ("Netopia API error: "
                         ++ match json_get "message" fields with
                            | Some v => str_json v
                            | None => "Unknown error"
                            end))
           | _ => raise (no_get result)
           end
         else ret result
     end)
    (fun e =>
       logger_error ("Failed to create recurring payment: " ++ exc_str e) ;;
       raise e).

(** ** SubscriptionCronManager

    Log messages are given without their leading pictograph. *)

Definition _process_subscription_renewal (subscription : SubscriptionRow)
  : M unit :=
  let subscription_id := sub_id (row_sub subscription) in
  logger_info ("Processing renewal for subscription " ++ subscription_id) ;;
  try_except
    (oid <- create_renewal_order subscription (row_price subscription) ;;
     logger_info ("Created renewal order " ++ oid) ;;
     let billing_info :=
       {| bi_type := "person";
          bi_first_name := "Recurring";
          bi_last_name := "Payment";
          bi_email := "recurring-" ++ subscription_id ++ "@monitoruloficial.ro";
          bi_mobile_phone := "0000000000" |} in
     let order_data :=
       {| od_order_id := oid;
          od_subscription_id := subscription_id;
          od_amount := row_price subscription;
          od_currency := row_currency subscription;
          od_billing_info := billing_info |} in
     payment_result <- create_recurring_payment order_data ;;
     netopia_order_id <- dict_get payment_result "netopia_order_id" ;;
     update_order_status oid "PROCESSING" netopia_order_id ;;
     new_period_end <-
       (if String.eqb (row_interval subscription) "MONTHLY"
        then (now <- datetime_now ;; ret (now + days 30))
        else if String.eqb (row_interval subscription) "YEARLY"
        then (now <- datetime_now ;; ret (now + days 365))
        else (now <- datetime_now ;; ret (now + days 30))) ;;
     update_subscription_period subscription_id new_period_end ;;
     logged_order_id <- dict_get payment_result "netopia_order_id" ;;
     log_payment_event
       (mkEvent (Some oid) (Some subscription_id)
                (Some "AUTO_RENEWAL_ATTEMPTED")
                logged_order_id
                (Some (row_price subscription))
                (Some (row_currency subscription))
                (Some "SUCCESS")
                (Some (PayloadResponse payment_result)) None None None) ;;
     logger_info ("Successfully processed renewal for subscription "
                  ++ subscription_id))
    (fun e =>
       logger_error ("Failed to process renewal for subscription "
                     ++ subscription_id ++ ": " ++ exc_str e) ;;
       raise e).

Definition process_recurring_billing : M unit :=
  logger_info "Processing recurring billing..." ;;
  try_except
    (due_subscriptions <- get_due_subscriptions ;;
     logger_info ("Found " ++ str_nat (List.length due_subscriptions)
                  ++ " subscriptions due for renewal") ;;
     for_each due_subscriptions
       (fun subscription =>
          try_except
            (_process_subscription_renewal subscription)
            (fun e =>
               logger_error ("Failed to process renewal for subscription "
                             ++ sub_id (row_sub subscription) ++ ": "
                             ++ exc_str e) ;;
               log_payment_event
                 (mkEvent None (Some (sub_id (row_sub subscription)))
                          (Some "AUTO_RENEWAL_FAILED") None None None
                          (Some "FAILED")
                          (Some (PayloadSubscription subscription)) None
                          (Some (exc_str e)) None))))
    (fun e => logger_error ("Error in recurring billing process: " ++ exc_str e)).

(** [not subscription.get("netopia_token")]: no token, or an empty one. *)
Definition no_token (subscription : SubscriptionRow) : bool :=
  match sub_netopia_token (row_sub subscription) with
  | None => true
  | Some t => String.eqb t ""
  end.

Definition _process_trial_expiration (subscription : SubscriptionRow)
  : M unit :=
  let subscription_id := sub_id (row_sub subscription) in
  logger_info ("Processing trial expiration for subscription "
               ++ subscription_id) ;;
  if no_token subscription
  then
    cancel_subscription subscription_id "Trial expired - no payment method" ;;
    logger_info ("Cancelled subscription " ++ subscription_id
                 ++ " - no payment method")
  else
    try_except
      (_process_subscription_renewal subscription ;;
       logger_info ("Successfully charged trial expiration for subscription "
                    ++ subscription_id))
      (fun e =>
         cancel_subscription subscription_id
           ("Trial expired - charge failed: " ++ exc_str e) ;;
         logger_info ("Cancelled subscription " ++ subscription_id
                      ++ " - charge failed")).

Definition process_trial_periods : M unit :=
  logger_info "Processing trial period expirations..." ;;
  try_except
    (trial_subscriptions <- get_trial_subscriptions ;;
     logger_info ("Found " ++ str_nat (List.length trial_subscriptions)
                  ++ " trial subscriptions to process") ;;
     for_each trial_subscriptions
       (fun subscription =>
          try_except
            (_process_trial_expiration subscription)
            (fun e =>
               logger_error
                 ("Failed to process trial expiration for subscription "
                  ++ sub_id (row_sub subscription) ++ ": " ++ exc_str e))))
    (fun e => logger_error ("Error in trial period process: " ++ exc_str e)).

(** [str(x)] of a nullable text column. *)
Definition str_opt (x : option string) : string :=
  match x with Some s => s | None => "None" end.

Definition _retry_payment (payment : FailedPayment) : M unit :=
  let oid := fp_order_id payment in
  let retry_count := fp_retry_count payment + 1 in
  logger_info ("Retrying payment " ++ str_opt oid ++ " (attempt "
               ++ str_Z retry_count ++ ")") ;;
  try_except
    (log_payment_event
       (mkEvent oid (fp_subscription_id payment) (Some "PAYMENT_RETRY") None
                None None (Some "RETRYING")
                (Some (PayloadOriginalPayment payment)) (Some retry_count)
                None None) ;;
     logger_info ("Retry attempt " ++ str_Z retry_count ++ " for payment "
                  ++ str_opt oid))
    (fun e =>
       logger_error ("Retry failed for payment " ++ str_opt oid ++ ": "
                     ++ exc_str e) ;;
       raise e).

Definition process_payment_retries : M unit :=
  logger_info "Processing payment retries..." ;;
  try_except
    (failed_payments <- get_failed_payments ;;
     logger_info ("Found " ++ str_nat (List.length failed_payments)
                  ++ " failed payments to retry") ;;
     for_each failed_payments
       (fun payment =>
          try_except
            (_retry_payment payment)
            (fun e =>
               logger_error ("Failed to retry payment "
                             ++ str_opt (fp_order_id payment) ++ ": "
                             ++ exc_str e))))
    (fun e => logger_error ("Error in payment retry process: " ++ exc_str e)).

(** The coroutine returns [None]. *)
Definition run_all_jobs : M unit :=
  logger_info "Starting subscription cron jobs..." ;;
  try_except
    (process_recurring_billing ;;
     process_trial_periods ;;
     process_payment_retries ;;
     logger_info "All cron jobs completed successfully")
    (fun e => logger_error ("Error in cron jobs: " ++ exc_str e) ;; raise e).

End Cron.

(** ** Observations used in the statements *)

(** The order [ORDER BY key ASC] establishes. *)
Definition key_le {A} (key : A -> option Z) (x y : A) : Prop :=
  ts_leb (key x) (key y) = true.

(** The status of every row of [subscriptions] carrying the id. *)
Definition status_of (id : string) (w : World) : list string :=
  map sub_status (filter (fun s => String.eqb (sub_id s) id) (subscriptions w)).

(** [interval_length]: the number of days a renewal adds. *)
Definition interval_length (interval : string) : Z :=
  if String.eqb interval "MONTHLY" then 30
  else if String.eqb interval "YEARLY" then 365
  else 30.

(** The POST that [_process_subscription_renewal] sends for [r] when it
    starts at interaction [k], and what the HTTP layer does with it. *)
Definition renewal_request (env : Env) (r : SubscriptionRow) (k : nat)
  : PostRequest :=
  mkPost
    {| od_order_id := db_new_id env k;
       od_subscription_id := sub_id (row_sub r);
       od_amount := row_price r;
       od_currency := row_currency r;
       od_billing_info :=
         {| bi_type := "person";
            bi_first_name := "Recurring";
            bi_last_name := "Payment";
            bi_email := "recurring-" ++ sub_id (row_sub r)
                        ++ "@monitoruloficial.ro";
            bi_mobile_phone := "0000000000" |} |}
    (py_now env (S k) * 1000) (py_now env (S (S k))) 30.

Definition gateway_reply (env : Env) (r : SubscriptionRow) (k : nat)
  : HttpOutcome :=
  netopia_post env (S (S (S k))) (renewal_request env r k).

(** The object of a reply with status 200 whose body decodes to an
    object. *)
Definition accepted (o : HttpOutcome) : option JsonObject :=
  match o with
  | Responded status (JObj body) => if status =? 200 then Some body else None
  | Responded _ _ | PostRaises _ | JsonRaises _ _ => None
  end.

(** The exception of the driver when [update_order_status] is given the
    [netopia_order_id] member of [body] and cannot encode it. *)
Definition refused_id (env : Env) (body : JsonObject) : PyExc :=
  driver_error env 3 (match json_get "netopia_order_id" body with
                      | Some j => j
                      | None => JNull
                      end).

(** The charge is accepted and the script can record it: the reply is a 200
    holding an object whose [netopia_order_id] is absent, null or a
    string. *)
Definition charge_recorded (o : HttpOutcome) : bool :=
  match accepted o with
  | Some body =>
      match text_id (json_get "netopia_order_id" body) with
      | Some _ => true
      | None => false
      end
  | None => false
  end.

(** A retry limit every integer type of PostgreSQL holds; the schema, which
    fixes the type of [retry_count], is not part of the script. *)
Definition fits_integer_column (z : Z) : Prop := -32768 <= z <= 32767.

(** [needle in hay]. *)
Definition contains (needle hay : string) : bool :=
  match String.index 0 needle hay with
  | Some _ => true
  | None => false
  end.

(** The exception a renewal ends with when the reply is not a 200 holding
    an object: the one [create_recurring_payment] raises, or the one of
    [payment_result.get] on a 200 whose body is no object. *)
Definition gateway_exception (env : Env) (o : HttpOutcome) : PyExc :=
  match o with
  | PostRaises e => e
  | JsonRaises _ e => e
  | Responded _ (JObj body) =>
      mkExc "Exception"
            ("Netopia API error: "
             ++ match json_get "message" body with
                | Some v => str_json env v
                | None => "Unknown error"
                end)
  | Responded _ body => no_get body
  end.

(** The columns [update_subscription_period] does not assign. *)
Definition untouched_columns (s : Subscription) :=
  (sub_id s, sub_user_id s, sub_tier_id s, sub_status s, sub_auto_renew s,
   sub_trial_end s, sub_netopia_token s, sub_cancel_effective_at s).

(** The bodies of the loops of [process_trial_periods] and
    [process_payment_retries]. *)
Definition trial_step (env : Env) (subscription : SubscriptionRow) : M unit :=
  try_except
    (_process_trial_expiration env subscription)
    (fun e =>
       logger_error ("Failed to process trial expiration for subscription "
                     ++ sub_id (row_sub subscription) ++ ": " ++ exc_str e)).

Definition retry_step (env : Env) (payment : FailedPayment) : M unit :=
  try_except
    (_retry_payment env payment)
    (fun e =>
       logger_error ("Failed to retry payment "
                     ++ str_opt (fp_order_id payment) ++ ": " ++ exc_str e)).

(** The rows a queue query returns. *)
Definition rows_of {A} (q : M (list A)) (w : World) : list A :=
  match fst (q w) with
  | Ok rows => rows
  | Raise _ => []
  end.

(** The body of the loop of [process_recurring_billing]. *)
Definition billing_step (env : Env) (subscription : SubscriptionRow) : M unit :=
  try_except
    (_process_subscription_renewal env subscription)
    (fun e =>
       logger_error ("Failed to process renewal for subscription "
                     ++ sub_id (row_sub subscription) ++ ": " ++ exc_str e) ;;
       log_payment_event env
         (mkEvent None (Some (sub_id (row_sub subscription)))
                  (Some "AUTO_RENEWAL_FAILED") None None None
                  (Some "FAILED")
                  (Some (PayloadSubscription subscription)) None
                  (Some (exc_str e)) None)).

(** The order [create_renewal_order] inserts for [r] at interaction [k]. *)
Definition renewal_order (env : Env) (r : SubscriptionRow) (k : nat) : Order :=
  {| order_id := db_new_id env k;
     order_user_id := sub_user_id (row_sub r);
     order_subscription_id := Some (sub_id (row_sub r));
     order_amount := row_price r;
     order_currency := row_currency r;
     order_status := "PENDING";
     order_netopia_order_id := None;
     order_metadata :=
       Some {| md_subscription_id := sub_id (row_sub r);
               md_tier_name := row_tier_name r;
               md_renewal := true;
               md_auto_renewal := true |};
     order_created_at := Some (db_now env k);
     order_updated_at := Some (db_now env k) |}.

(** The columns [update_order_status] does not assign. *)
Definition order_untouched_columns (o : Order) :=
  (order_id o, order_user_id o, order_subscription_id o, order_amount o,
   order_currency o, order_metadata o, order_created_at o).

(** The subscription a request asks to charge. *)
Definition charged_subscription (q : PostRequest) : string :=
  od_subscription_id (post_order q).

(** ** What a run may change

    The columns of [subscriptions] that no statement of the script
    assigns, and the relation between the store before and after a
    computation: the subscriptions are the same rows, each with these
    columns as before and with its status either as before or CANCELED;
    the payment log has only grown at its end; the tiers are untouched. *)
Definition stable_columns (s : Subscription) :=
  (sub_id s, sub_user_id s, sub_tier_id s, sub_auto_renew s, sub_trial_end s,
   sub_netopia_token s).

Definition row_evolves (s s' : Subscription) : Prop :=
  stable_columns s' = stable_columns s
  /\ (sub_status s' = sub_status s \/ sub_status s' = "CANCELED").

Definition evolves (w w' : World) : Prop :=
  Forall2 row_evolves (subscriptions w) (subscriptions w')
  /\ (exists new, payment_logs w' = (payment_logs w ++ new)%list)
  /\ subscription_tiers w' = subscription_tiers w.

Definition Preserves {A} (m : M A) : Prop :=
  forall w, evolves w (snd (m w)).

(** ** The entry point *)

(** The [Config] object as [load_config] builds it: the connection and
    credential fields, and the retry and trial settings read by the jobs. *)
Record Settings : Type := mkSettings {
  db_host : string;
  db_port : Z;
  db_name : string;
  db_user : string;
  db_password : string;
  netopia_api_key : string;
  netopia_secret_key : string;
  netopia_base_url : string;
  internal_api_key : string;
  api_base_url : string;
  job_config : Config
}.

(** The operating-system side of the process: its environment variables,
    [int(s)] on the text of a setting, which returns the integer or raises,
    and [asyncpg.create_pool], which connects to the database or raises. *)
Record Process : Type := mkProcess {
  environ : string -> option string;
  py_int : string -> Result Z;
  create_pool : Settings -> Result unit
}.

(** [os.getenv(name, default)]. *)
Definition getenv (p : Process) (name default : string) : string :=
  match environ p name with
  | Some v => v
  | None => default
  end.

Definition load_config (p : Process) : Result Settings :=
  match py_int p (getenv p "DB_PORT" "5432") with
  | Raise e => Raise e
  | Ok port =>
  match py_int p (getenv p "MAX_RETRY_ATTEMPTS" "3") with
  | Raise e => Raise e
  | Ok attempts =>
  match py_int p (getenv p "RETRY_DELAY_SECONDS" "300") with
  | Raise e => Raise e
  | Ok delay =>
  match py_int p (getenv p "TRIAL_GRACE_PERIOD_HOURS" "24") with
  | Raise e => Raise e
  | Ok grace =>
      Ok {| db_host := getenv p "DB_HOST" "localhost";
            db_port := port;
            db_name := getenv p "DB_NAME" "monitoruloficial";
            db_user := getenv p "DB_USER" "postgres";
            db_password := getenv p "DB_PASSWORD" "";
            netopia_api_key := getenv p "NETOPIA_API_KEY" "";
            netopia_secret_key := getenv p "NETOPIA_SECRET_KEY" "";
            netopia_base_url :=
              getenv p "NETOPIA_BASE_URL" "https://sandboxsecure.mobilpay.ro";
            internal_api_key := getenv p "INTERNAL_API_KEY" "";
            api_base_url :=
              getenv p "API_BASE_URL" "https://api.monitoruloficial.ro";
            job_config :=
              {| max_retry_attempts := attempts;
                 retry_delay_seconds := delay;
                 trial_grace_period_hours := grace |} |}
  end end end end.

(** [main], returning the exit status of the process: [sys.exit(1)] raises
    [SystemExit], which [except Exception] lets through; a coroutine that
    returns ends the process with status 0.  Entering the manager opens the
    HTTP session and then the pool; an exception of [create_pool] reaches
    the handler of [main] before any job has run.  Closing the session and
    the pool is assumed to succeed. *)
Definition main (p : Process) (env : Env) : M Z :=
  match load_config p with
  | Raise e => logger_error ("Fatal error: " ++ exc_str e) ;; ret 1
  | Ok config =>
      if String.eqb (netopia_api_key config) ""
         || String.eqb (netopia_secret_key config) ""
      then logger_error "Missing required Netopia API credentials" ;; ret 1
      else if String.eqb (db_password config) ""
      then logger_error "Missing database password" ;; ret 1
      else
        match create_pool p config with
        | Raise e => logger_error ("Fatal error: " ++ exc_str e) ;; ret 1
        | Ok _ =>
            try_except
              (run_all_jobs env (job_config config) ;; ret 0)
              (fun e => logger_error ("Fatal error: " ++ exc_str e) ;; ret 1)
        end
  end.

(** ** Scenarios

    The subscriptions and the failed payment of the test data, on a clock
    that advances by one second per interaction. *)
Module Scenario.

Definition t0 : Z := 1700000000.

Definition clock (k : nat) : Z := t0 + Z.of_nat k.

Definition accept : nat -> PostRequest -> HttpOutcome :=
  fun _ req =>
    Responded 200
      (JObj [("netopia_order_id", JStr ("G-" ++ od_order_id (post_order req)));
             ("status", JStr "PROCESSING")]).

Definition time_out : nat -> PostRequest -> HttpOutcome :=
  fun _ _ => PostRaises (mkExc "TimeoutError" "").

Definition disconnected : PyExc :=
  mkExc "ServerDisconnectedError" "Server disconnected".

(** The driver's refusal of a number or a boolean bound to a text column. *)
Definition data_error (n : Z) (v : Json) : PyExc :=
  mkExc "DataError"
        ("invalid input for query argument $" ++ str_Z n ++ ": "
         ++ match v with
            | JNum z => str_Z z
            | JBool true => "True"
            | JBool false => "False"
            | _ => ""
            end
         ++ " (expected str, got " ++ type_name v ++ ")").

Definition env_of (gateway : nat -> PostRequest -> HttpOutcome) : Env :=
  {| db_now := clock;
     py_now := clock;
     db_new_id := fun k => "order_" ++ str_nat k;
     netopia_post := gateway;
     py_str := fun _ => "";
     driver_error := data_error |}.

(** The same environment seen from a Python host whose clock is one hour
    behind the database's. *)
Definition behind (env : Env) : Env :=
  {| db_now := db_now env;
     py_now := fun k => py_now env k - hours 1;
     db_new_id := db_new_id env;
     netopia_post := netopia_post env;
     py_str := py_str env;
     driver_error := driver_error env |}.

Definition pro : SubscriptionTier := mkTier "tier_1" "pro" 2999 "RON" "MONTHLY".

Definition S1 : Subscription :=
  mkSubscription "sub_1" "user_1" "tier_1" "ACTIVE" true
                 (Some (t0 - days 31)) (Some (t0 - days 1)) None
                 (Some "token_123") None None.

Definition S2 : Subscription :=
  mkSubscription "sub_2" "user_2" "tier_1" "TRIALING" true
                 None None (Some (t0 - hours 1)) None None None.

Definition S3 : Subscription :=
  mkSubscription "sub_3" "user_3" "tier_1" "TRIALING" true
                 None None (Some (t0 - hours 1)) (Some "token_456") None None.

Definition S4 : Subscription :=
  mkSubscription "sub_4" "user_4" "tier_1" "ACTIVE" true
                 (Some (t0 - days 30)) (Some (t0 - hours 5)) None
                 (Some "token_789") None None.

Definition row_of (s : Subscription) : SubscriptionRow :=
  mkRow s (tier_price pro) (tier_currency pro) (tier_interval pro)
        (tier_name pro).

Definition O1 : Order :=
  mkOrder "order_1" "user_1" (Some "sub_1") 2999 "RON" "FAILED" None None
          (Some (t0 - hours 3)) (Some (t0 - hours 2)).

Definition E1 : PaymentLog :=
  mkLog (Some "order_1") (Some "sub_1") (Some "PAYMENT_FAILED") None
        (Some 2999) (Some "RON") (Some "FAILED") PayloadEmpty 1
        (Some "card declined") None (t0 - hours 2).

Definition P1 : FailedPayment :=
  mkFailed (Some "order_1") (Some "sub_1") (Some "PAYMENT_FAILED") 1
           (t0 - hours 2) O1 (Some S1).

Definition world_of (subs : list Subscription) (ords : list Order)
           (logs : list PaymentLog) : World :=
  {| subscriptions := subs;
     subscription_tiers := [pro];
     orders := ords;
     payment_logs := logs;
     profiles := [mkProfile "user_1" "pro" None; mkProfile "user_2" "pro" None;
                  mkProfile "user_3" "pro" None; mkProfile "user_4" "pro" None];
     netopia_requests := [];
     logger := [];
     ticks := 0 |}.

Definition billing_world : World := world_of [S1; S4] [] [].

Definition trial_world : World := world_of [S1; S2; S3] [] [].

Definition retry_world : World := world_of [S1] [O1] [E1].

(** A 502 from a proxy in front of the gateway: an HTML page, which
    [response.json()] refuses. *)
Definition html_error_page : PyExc :=
  mkExc "ContentTypeError"
        "Attempt to decode JSON with unexpected mimetype: text/html".

Definition bad_gateway : nat -> PostRequest -> HttpOutcome :=
  fun _ _ => JsonRaises 502 html_error_page.

Definition OD1 : OrderData :=
  post_order (renewal_request (env_of accept) (row_of S1) 0).

(** A gateway that declines the card of [sub_4] and accepts the others. *)
Definition decline_sub_4 : nat -> PostRequest -> HttpOutcome :=
  fun k q =>
    if String.eqb (od_subscription_id (post_order q)) "sub_4"
    then Responded 402 (JObj [("message", JStr "Insufficient funds")])
    else accept k q.

(** A gateway that accepts every charge and names its order by a number. *)
Definition numeric_id : nat -> PostRequest -> HttpOutcome :=
  fun _ _ =>
    Responded 200 (JObj [("netopia_order_id", JNum 12345);
                         ("status", JStr "PROCESSING")]).

(** A second failed payment whose retries are used up, and an order
    without creation time and subscription. *)
Definition E2 : PaymentLog :=
  mkLog (Some "order_1") (Some "sub_1") (Some "PAYMENT_FAILED") None
        (Some 2999) (Some "RON") (Some "FAILED") PayloadEmpty 3
        (Some "card declined") None (t0 - hours 1).

(** A process whose environment holds the three credentials; [int] reads
    the defaults of the four integer settings. *)
Definition read_int (s : string) : Result Z :=
  if String.eqb s "5432" then Ok 5432
  else if String.eqb s "3" then Ok 3
  else if String.eqb s "300" then Ok 300
  else if String.eqb s "24" then Ok 24
  else Raise (mkExc "ValueError" "invalid literal for int() with base 10").

Definition configured : Process :=
  {| environ := fun name =>
       if String.eqb name "NETOPIA_API_KEY" then Some "key"
       else if String.eqb name "NETOPIA_SECRET_KEY" then Some "secret"
       else if String.eqb name "DB_PASSWORD" then Some "password"
       else None;
     py_int := read_int;
     create_pool := fun _ => Ok tt |}.

Definition unconfigured : Process :=
  {| environ := fun _ => None; py_int := read_int;
     create_pool := fun _ => Ok tt |}.

End Scenario.

(** * Facts about the SQL helpers *)

Section OrderBy.

Context {A : Type} (key : A -> option Z).

Lemma ts_leb_total (a b : option Z) : ts_leb a b = true \/ ts_leb b a = true.
Proof.
  destruct a as [x|], b as [y|]; simpl; auto.
  destruct (Z.leb_spec x y); [left; reflexivity | right].
  apply Z.leb_le. lia.
Qed.

Lemma ts_leb_trans (a b c : option Z) :
  ts_leb a b = true -> ts_leb b c = true -> ts_leb a c = true.
Proof.
  destruct a as [x|], b as [y|], c as [z|]; simpl; try congruence.
  rewrite !Z.leb_le. lia.
Qed.

Lemma insert_by_perm (x : A) (l : list A) :
  Permutation (x :: l) (insert_by key x l).
Proof.
  induction l as [|y l IH]; simpl.
  - apply Permutation_refl.
  - destruct (ts_leb (key x) (key y)).
    + apply Permutation_refl.
    + eapply perm_trans; [apply perm_swap | apply perm_skip, IH].
Qed.

Lemma order_by_perm (l : list A) : Permutation l (order_by key l).
Proof.
  induction l as [|x l IH]; simpl.
  - constructor.
  - eapply perm_trans; [apply perm_skip, IH | apply insert_by_perm].
Qed.

Lemma in_order_by (x : A) (l : list A) : In x (order_by key l) <-> In x l.
Proof.
  split; apply Permutation_in;
    [apply Permutation_sym |]; apply order_by_perm.
Qed.

Lemma insert_by_sorted (x : A) (l : list A) :
  StronglySorted (key_le key) l -> StronglySorted (key_le key) (insert_by key x l).
Proof.
  induction 1 as [|y l Hl IH Hy]; simpl.
  - repeat constructor.
  - destruct (ts_leb (key x) (key y)) eqn:E.
    + constructor; [constructor; assumption |].
      constructor; [exact E |].
      rewrite Forall_forall in *. intros z Hz.
      eapply ts_leb_trans; [exact E | apply Hy, Hz].
    + constructor; [exact IH |].
      rewrite Forall_forall in *. intros z Hz.
      apply (Permutation_in _ (Permutation_sym (insert_by_perm x l))) in Hz.
      destruct Hz as [<- | Hz]; [| apply Hy, Hz].
      destruct (ts_leb_total (key x) (key y)) as [H | H];
        [congruence | exact H].
Qed.

Lemma order_by_sorted (l : list A) :
  StronglySorted (key_le key) (order_by key l).
Proof.
  induction l as [|x l IH]; simpl.
  - constructor.
  - apply insert_by_sorted, IH.
Qed.

End OrderBy.

Lemma filter_unique_tier (tid : string) (tiers : list SubscriptionTier) :
  NoDup (map tier_id tiers) ->
  (List.length (filter (fun st => String.eqb tid (tier_id st)) tiers) <= 1)%nat.
Proof.
  induction tiers as [|st tiers IH]; simpl; intros Hnd; [lia |].
  inversion Hnd as [|? ? Hnotin Hnd']; subst.
  destruct (String.eqb_spec tid (tier_id st)) as [-> | Hne]; simpl.
  - assert (Hnil : filter (fun st0 => String.eqb (tier_id st) (tier_id st0)) tiers = []).
    { clear IH Hnd Hnd'. induction tiers as [|st' tiers IH]; simpl; [reflexivity |].
      simpl in Hnotin.
      destruct (String.eqb_spec (tier_id st) (tier_id st')) as [E | _].
      - exfalso. apply Hnotin. left. symmetry. exact E.
      - apply IH. intros H. apply Hnotin. right. exact H. }
    rewrite Hnil. simpl. lia.
  - apply IH, Hnd'.
Qed.

Lemma in_join_tier (tiers : list SubscriptionTier) (s : Subscription)
      (r : SubscriptionRow) :
  In r (join_tier tiers s) <->
  exists st, In st tiers /\ sub_tier_id s = tier_id st /\
             r = mkRow s (tier_price st) (tier_currency st) (tier_interval st)
                       (tier_name st).
Proof.
  unfold join_tier. rewrite in_map_iff. split.
  - intros (st & <- & Hin). apply filter_In in Hin as [Hin E].
    apply String.eqb_eq in E. eauto.
  - intros (st & Hin & E & ->). exists st. split; [reflexivity |].
    apply filter_In. split; [exact Hin | apply String.eqb_eq, E].
Qed.

Lemma in_subscriptions_with_tier (w : World) (r : SubscriptionRow) :
  In r (subscriptions_with_tier w) <->
  exists s st, In s (subscriptions w) /\ In st (subscription_tiers w) /\
               sub_tier_id s = tier_id st /\
               r = mkRow s (tier_price st) (tier_currency st)
                         (tier_interval st) (tier_name st).
Proof.
  unfold subscriptions_with_tier. rewrite in_flat_map. split.
  - intros (s & Hs & Hr). apply in_join_tier in Hr as (st & ? & ? & ?).
    exists s, st. auto.
  - intros (s & st & Hs & Hst & E & ->). exists s. split; [exact Hs |].
    apply in_join_tier. eauto.
Qed.

Lemma row_sub_join_tier (tiers : list SubscriptionTier) (s : Subscription) :
  map row_sub (join_tier tiers s) = repeat s (List.length (join_tier tiers s)).
Proof.
  unfold join_tier.
  induction (filter (fun st => String.eqb (sub_tier_id s) (tier_id st)) tiers)
    as [|st l IH]; simpl; [reflexivity | now rewrite IH].
Qed.

(** A [WHERE] clause keeps the ids of the selected rows distinct. *)
Lemma where_keeps_primary_key (cond : SubscriptionRow -> bool)
      (rows : list SubscriptionRow) :
  NoDup (map (fun r => sub_id (row_sub r)) rows) ->
  NoDup (map (fun r => sub_id (row_sub r)) (filter cond rows)).
Proof.
  induction rows as [|r rows IH]; cbn; intros Hpk; [exact Hpk |].
  apply NoDup_cons_iff in Hpk as [Hfresh Hpk].
  destruct (cond r); cbn; [| exact (IH Hpk)].
  apply NoDup_cons; [| exact (IH Hpk)].
  contradict Hfresh.
  apply in_map_iff in Hfresh as (r' & Hid & Hr').
  apply filter_In in Hr' as [Hr' _].
  rewrite <- Hid.
  exact (in_map (fun x => sub_id (row_sub x)) rows r' Hr').
Qed.

Lemma NoDup_subscriptions_with_tier (w : World) :
  NoDup (map sub_id (subscriptions w)) ->
  NoDup (map tier_id (subscription_tiers w)) ->
  NoDup (map (fun r => sub_id (row_sub r)) (subscriptions_with_tier w)).
Proof.
  intros Hsubs Htiers. unfold subscriptions_with_tier.
  induction (subscriptions w) as [|s subs IH]; simpl; [constructor |].
  inversion Hsubs as [|? ? Hnotin Hnd]; subst.
  rewrite map_app.
  pose proof (filter_unique_tier (sub_tier_id s) _ Htiers) as Hlen.
  unfold join_tier at 1.
  destruct (filter (fun st => String.eqb (sub_tier_id s) (tier_id st))
                   (subscription_tiers w)) as [|st [|st' l]];
    simpl in *; [apply IH, Hnd | | lia].
  constructor; [| apply IH, Hnd].
  intros Hin. apply Hnotin.
  apply in_map_iff in Hin as (r & E & Hr).
  apply in_flat_map in Hr as (s' & Hs' & Hr).
  apply in_join_tier in Hr as (st'' & _ & _ & ->). simpl in E.
  apply in_map_iff. eauto.
Qed.

Lemma StronglySorted_weaken {A} (R R' : A -> A -> Prop) (l : list A) :
  (forall a b, In a l -> In b l -> R a b -> R' a b) ->
  StronglySorted R l -> StronglySorted R' l.
Proof.
  intros HR Hs. induction Hs as [|x l Hl IH Hx]; constructor.
  - apply IH. intros a b Ha Hb. apply HR; right; assumption.
  - rewrite Forall_forall in *. intros y Hy.
    apply HR; [left; reflexivity | right; exact Hy | apply Hx, Hy].
Qed.

Lemma due_where_spec (now : Z) (r : SubscriptionRow) :
  due_where now r = true <->
  sub_status (row_sub r) = "ACTIVE" /\ sub_auto_renew (row_sub r) = true
  /\ (exists t, sub_current_period_end (row_sub r) = Some t /\ t <= now)
  /\ sub_netopia_token (row_sub r) <> None.
Proof.
  unfold due_where, ts_at_or_before, is_null.
  rewrite !andb_true_iff, String.eqb_eq, Bool.eqb_true_iff.
  destruct (sub_current_period_end (row_sub r)) as [t|],
           (sub_netopia_token (row_sub r)) as [tok|]; simpl;
    rewrite ?Z.leb_le; split.
  - intros [[[? ?] ?] _]. repeat split; try assumption; [eauto | discriminate].
  - intros (? & ? & (t' & [= <-] & ?) & _). auto.
  - intros [_ ?]; discriminate.
  - intros (_ & _ & _ & H); contradiction.
  - intros [[_ ?] _]; discriminate.
  - intros (_ & _ & (t' & ? & _) & _); discriminate.
  - intros [_ ?]; discriminate.
  - intros (_ & _ & _ & H); contradiction.
Qed.

(** * The renewal queue *)

(** C8. [get_due_subscriptions] returns exactly the subscriptions that are
    ACTIVE, auto-renewing, at or past the end of their period and holding a
    non-null token, oldest period end first; no CANCELED, TRIALING or
    token-less subscription is in the result and no subscription occurs
    twice.  The schema's keys are the hypotheses: [id] is the primary key of
    both tables and every [tier_id] refers to a tier. *)
Theorem get_due_subscriptions_exact (env : Env) (w : World) :
  NoDup (map sub_id (subscriptions w)) ->
  NoDup (map tier_id (subscription_tiers w)) ->
  (forall s, In s (subscriptions w) ->
             exists st, In st (subscription_tiers w) /\ sub_tier_id s = tier_id st) ->
  exists rows,
    fst (get_due_subscriptions env w) = Ok rows
    /\ (forall s, In s (map row_sub rows) <->
                  In s (subscriptions w)
                  /\ sub_status s = "ACTIVE"
                  /\ sub_auto_renew s = true
                  /\ (exists t, sub_current_period_end s = Some t
                                /\ t <= db_now env (ticks w))
                  /\ sub_netopia_token s <> None)
    /\ StronglySorted
         (fun a b => exists ta tb,
              sub_current_period_end (row_sub a) = Some ta
              /\ sub_current_period_end (row_sub b) = Some tb /\ ta <= tb)
         rows
    /\ NoDup (map (fun r => sub_id (row_sub r)) rows)
    /\ (forall r, In r rows ->
                  sub_status (row_sub r) <> "CANCELED"
                  /\ sub_status (row_sub r) <> "TRIALING"
                  /\ sub_netopia_token (row_sub r) <> None).
Proof.
  intros Hpk Htiers Hfk.
  set (key := fun r : SubscriptionRow => sub_current_period_end (row_sub r)).
  set (now := db_now env (ticks w)).
  set (sel := filter (due_where now) (subscriptions_with_tier w)).
  assert (Hin : forall r, In r (order_by key sel) <->
                          In r (subscriptions_with_tier w) /\ due_where now r = true).
  { intros r. rewrite in_order_by. unfold sel. apply filter_In. }
  exists (order_by key sel). split; [reflexivity |].
  split; [| split; [| split]].
  - intros s. rewrite in_map_iff. split.
    + intros (r & <- & Hr). apply Hin in Hr as [Hr Hdue].
      apply in_subscriptions_with_tier in Hr as (s & st & Hs & _ & _ & ->).
      apply due_where_spec in Hdue. simpl in *. tauto.
    + intros (Hs & Hrest). destruct (Hfk s Hs) as (st & Hst & E).
      exists (mkRow s (tier_price st) (tier_currency st) (tier_interval st)
                    (tier_name st)).
      split; [reflexivity |]. apply Hin. split.
      * apply in_subscriptions_with_tier. exists s, st. auto.
      * apply due_where_spec. simpl. exact Hrest.
  - apply StronglySorted_weaken with (R := key_le key);
      [| apply order_by_sorted].
    intros a b Ha Hb Hle.
    apply Hin in Ha as [_ Ha]. apply Hin in Hb as [_ Hb].
    apply due_where_spec in Ha as (_ & _ & (ta & Ea & _) & _).
    apply due_where_spec in Hb as (_ & _ & (tb & Eb & _) & _).
    exists ta, tb. repeat split; try assumption.
    unfold key_le, key in Hle. rewrite Ea, Eb in Hle. simpl in Hle.
    apply Z.leb_le, Hle.
  - apply (Permutation_NoDup
             (Permutation_map (fun r => sub_id (row_sub r)) (order_by_perm key sel))).
    unfold sel. apply where_keeps_primary_key.
    apply NoDup_subscriptions_with_tier; assumption.
  - intros r Hr. apply Hin in Hr as [_ Hdue].
    apply due_where_spec in Hdue as (Hst & _ & _ & Htok).
    rewrite Hst. repeat split; [discriminate | discriminate | exact Htok].
Qed.

(** * One renewal, step by step *)

Ltac run_renewal :=
  unfold _process_subscription_renewal, create_recurring_payment,
    update_order_status, update_subscription_period, log_payment_event,
    create_renewal_order, session_post, datetime_now, dict_get, text_param,
    logger_info, logger_error, try_except, bind, ret, raise;
  cbn.

Ltac finish_run :=
  cbn; eexists; (split; [reflexivity |]); cbn; repeat split; reflexivity.

(** The reply is a 200 holding an object whose [netopia_order_id] the
    driver takes: every step of the renewal is carried out. *)
Lemma renewal_when_accepted (env : Env) (r : SubscriptionRow) (w : World)
      (body : JsonObject) (nid : option string) :
  accepted (gateway_reply env r (ticks w)) = Some body ->
  text_id (json_get "netopia_order_id" body) = Some nid ->
  exists w',
    _process_subscription_renewal env r w = (Ok tt, w')
    /\ subscriptions w' =
       map (fun s => if String.eqb (sub_id s) (sub_id (row_sub r))
                     then set_period (db_now env (6 + ticks w))
                                     (py_now env (5 + ticks w)
                                      + days (interval_length (row_interval r))) s
                     else s)
           (subscriptions w)
    /\ payment_logs w' =
       (payment_logs w
        ++ [mkLog (Some (db_new_id env (ticks w))) (Some (sub_id (row_sub r)))
                  (Some "AUTO_RENEWAL_ATTEMPTED")
                  nid (Some (row_price r))
                  (Some (row_currency r)) (Some "SUCCESS")
                  (PayloadResponse (JObj body)) 0 None None
                  (db_now env (7 + ticks w))])%list
    /\ profiles w' = profiles w
    /\ subscription_tiers w' = subscription_tiers w
    /\ netopia_requests w' =
       (netopia_requests w ++ [renewal_request env r (ticks w)])%list
    /\ ticks w' = (8 + ticks w)%nat.
Proof.
  intros H Hid. unfold accepted, gateway_reply, renewal_request in H.
  run_renewal.
  destruct (netopia_post env _ _) as [e | st e | st b]; try discriminate.
  destruct b as [| | | | | b]; try discriminate.
  destruct (st =? 200) eqn:E; try discriminate.
  injection H as ->. cbn. rewrite Hid. unfold interval_length.
  destruct (String.eqb (row_interval r) "MONTHLY");
    [| destruct (String.eqb (row_interval r) "YEARLY")];
    cbn; rewrite ?Hid; finish_run.
Qed.

(** The reply is not a 200 holding an object: the renewal raises after the
    POST and writes nothing but the order it had created. *)
Lemma renewal_when_refused (env : Env) (r : SubscriptionRow) (w : World) :
  accepted (gateway_reply env r (ticks w)) = None ->
  exists w',
    _process_subscription_renewal env r w
    = (Raise (gateway_exception env (gateway_reply env r (ticks w))), w')
    /\ subscriptions w' = subscriptions w
    /\ payment_logs w' = payment_logs w
    /\ profiles w' = profiles w
    /\ subscription_tiers w' = subscription_tiers w
    /\ netopia_requests w' =
       (netopia_requests w ++ [renewal_request env r (ticks w)])%list
    /\ ticks w' = (4 + ticks w)%nat.
Proof.
  intros H. unfold accepted, gateway_reply, renewal_request in *.
  run_renewal.
  destruct (netopia_post env _ _) as [e | st e | st b]; cbn.
  1, 2: finish_run.
  destruct b as [| | | | | b];
    destruct (st =? 200) eqn:E; try discriminate; finish_run.
Qed.

(** The reply is a 200 holding an object, and the driver refuses its
    [netopia_order_id]: the renewal raises at [update_order_status], before
    the period write. *)
Lemma renewal_when_id_refused (env : Env) (r : SubscriptionRow) (w : World)
      (body : JsonObject) :
  accepted (gateway_reply env r (ticks w)) = Some body ->
  text_id (json_get "netopia_order_id" body) = None ->
  exists w',
    _process_subscription_renewal env r w = (Raise (refused_id env body), w')
    /\ subscriptions w' = subscriptions w
    /\ payment_logs w' = payment_logs w
    /\ profiles w' = profiles w
    /\ subscription_tiers w' = subscription_tiers w
    /\ netopia_requests w' =
       (netopia_requests w ++ [renewal_request env r (ticks w)])%list
    /\ ticks w' = (4 + ticks w)%nat.
Proof.
  intros H Hid. unfold accepted, gateway_reply, renewal_request in H.
  run_renewal.
  destruct (netopia_post env _ _) as [e | st e | st b]; try discriminate.
  destruct b as [| | | | | b]; try discriminate.
  destruct (st =? 200) eqn:E; try discriminate.
  injection H as ->. cbn. rewrite Hid. unfold refused_id. finish_run.
Qed.

Lemma in_map_update {A} (p : A -> bool) (f : A -> A) (l : list A) (y : A) :
  In y (map (fun x => if p x then f x else x) l) ->
  exists x, In x l /\ y = (if p x then f x else x).
Proof.
  intros H. apply in_map_iff in H as (x & E & Hx). eauto.
Qed.

(** * Renewal *)

(** C9, as the code has it. On a successful renewal (a 200 whose body is an
    object with a [netopia_order_id] that is absent, null or a string)
    every row of the subscription gets two separate clock readings:
    [current_period_start] is the database's [NOW()] at the period write,
    and [current_period_end] is the [datetime.now()] of the Python process,
    read one interaction earlier, plus exactly 30 days for MONTHLY, 365
    days for YEARLY and 30 days for any other interval. *)
Theorem renewal_new_period (env : Env) (r : SubscriptionRow) (w : World)
        (body : JsonObject) (nid : option string) :
  accepted (gateway_reply env r (ticks w)) = Some body ->
  text_id (json_get "netopia_order_id" body) = Some nid ->
  let w' := snd (_process_subscription_renewal env r w) in
  let now := py_now env (5 + ticks w) in
  fst (_process_subscription_renewal env r w) = Ok tt
  /\ List.length (subscriptions w') = List.length (subscriptions w)
  /\ (forall s', In s' (subscriptions w') ->
                 sub_id s' = sub_id (row_sub r) ->
                 sub_current_period_start s' = Some (db_now env (6 + ticks w))
                 /\ (row_interval r = "MONTHLY" ->
                     sub_current_period_end s' = Some (now + 30 * 86400))
                 /\ (row_interval r = "YEARLY" ->
                     sub_current_period_end s' = Some (now + 365 * 86400))
                 /\ (row_interval r <> "MONTHLY" -> row_interval r <> "YEARLY" ->
                     sub_current_period_end s' = Some (now + 30 * 86400)))
  /\ (forall s, In s (subscriptions w) -> sub_id s = sub_id (row_sub r) ->
                exists s', In s' (subscriptions w') /\ sub_id s' = sub_id s).
Proof.
  intros H Hid.
  destruct (renewal_when_accepted env r w body nid H Hid)
    as (w1 & Hrun & Hsubs & _).
  rewrite Hrun. cbn [fst snd]. rewrite Hsubs.
  split; [reflexivity |]. split; [apply length_map |]. split.
  - intros s' Hin Hsame.
    apply in_map_update in Hin as (s & _ & ->).
    destruct (String.eqb_spec (sub_id s) (sub_id (row_sub r))) as [_ | Hne];
      [| contradiction].
    cbn. split; [reflexivity |]. unfold interval_length, days.
    repeat split.
    + intros ->. reflexivity.
    + intros ->. reflexivity.
    + intros H1 H2.
      destruct (String.eqb_spec (row_interval r) "MONTHLY"); [contradiction |].
      destruct (String.eqb_spec (row_interval r) "YEARLY"); [contradiction |].
      reflexivity.
  - intros s Hin Hsame.
    exists (set_period (db_now env (6 + ticks w))
                       (py_now env (5 + ticks w)
                        + days (interval_length (row_interval r))) s).
    split; [| reflexivity].
    apply in_map_iff. exists s. split; [| exact Hin].
    rewrite Hsame, String.eqb_refl. reflexivity.
Qed.


(** * Cancellation and trial expiry *)

Lemma bind_ok {A B} (m : M A) (k : A -> M B) (w w1 : World) (a : A) :
  m w = (Ok a, w1) -> bind m k w = k a w1.
Proof. intros H. unfold bind. now rewrite H. Qed.

Lemma bind_raise {A B} (m : M A) (k : A -> M B) (w w1 : World) (e : PyExc) :
  m w = (Raise e, w1) -> bind m k w = (Raise e, w1).
Proof. intros H. unfold bind. now rewrite H. Qed.

Lemma try_except_ok {A} (m : M A) (h : PyExc -> M A) (w w1 : World) (a : A) :
  m w = (Ok a, w1) -> try_except m h w = (Ok a, w1).
Proof. intros H. unfold try_except. now rewrite H. Qed.

Lemma try_except_raise {A} (m : M A) (h : PyExc -> M A) (w w1 : World)
      (e : PyExc) :
  m w = (Raise e, w1) -> try_except m h w = h e w1.
Proof. intros H. unfold try_except. now rewrite H. Qed.

Lemma filter_after_update (id : string) (f : Subscription -> Subscription)
      (l : list Subscription) :
  (forall s, sub_id (f s) = sub_id s) ->
  filter (fun s => String.eqb (sub_id s) id)
         (map (fun s => if String.eqb (sub_id s) id then f s else s) l)
  = map f (filter (fun s => String.eqb (sub_id s) id) l).
Proof.
  intros Hf. induction l as [|s l IH]; simpl; [reflexivity |].
  destruct (String.eqb (sub_id s) id) eqn:E; simpl.
  - rewrite Hf, E. simpl. now rewrite IH.
  - rewrite E. exact IH.
Qed.

Lemma filter_primary_key (s : Subscription) (l : list Subscription) :
  NoDup (map sub_id l) -> In s l ->
  filter (fun x => String.eqb (sub_id x) (sub_id s)) l = [s].
Proof.
  induction l as [|x l IH]; simpl; intros Hnd Hin; [contradiction |].
  inversion Hnd as [|? ? Hnotin Hnd']; subst.
  destruct Hin as [-> | Hin].
  - rewrite String.eqb_refl. f_equal.
    clear IH Hnd Hnd'. induction l as [|y l IH]; simpl; [reflexivity |].
    destruct (String.eqb_spec (sub_id y) (sub_id s)) as [E | _].
    + exfalso. apply Hnotin. left. exact E.
    + apply IH. intros H. apply Hnotin. right. exact H.
  - destruct (String.eqb_spec (sub_id x) (sub_id s)) as [E | _].
    + exfalso. apply Hnotin. rewrite E. apply in_map, Hin.
    + apply IH; assumption.
Qed.

Lemma cancel_subscription_subscriptions (env : Env) (id reason : string)
      (w : World) :
  subscriptions (snd (cancel_subscription env id reason w))
  = map (fun s => if String.eqb (sub_id s) id
                  then set_canceled (db_now env (ticks w)) s else s)
        (subscriptions w).
Proof.
  unfold cancel_subscription, log_payment_event, bind. cbn.
  destruct (filter _ _) as [|s [|s' l]]; reflexivity.
Qed.

Lemma cancel_subscription_run (env : Env) (s : Subscription) (reason : string)
      (w : World) :
  NoDup (map sub_id (subscriptions w)) ->
  In s (subscriptions w) ->
  exists w',
    cancel_subscription env (sub_id s) reason w = (Ok tt, w')
    /\ subscriptions w' =
       map (fun x => if String.eqb (sub_id x) (sub_id s)
                     then set_canceled (db_now env (ticks w)) x else x)
           (subscriptions w)
    /\ profiles w' =
       map (fun p => if String.eqb (profile_id p) (sub_user_id s)
                     then set_free (db_now env (1 + ticks w)) p else p)
           (profiles w)
    /\ payment_logs w' =
       (payment_logs w
        ++ [mkLog None (Some (sub_id s)) (Some "SUBSCRIPTION_CANCELED") None
                  None None (Some "CANCELED") (PayloadCancel reason true) 0
                  None None (db_now env (2 + ticks w))])%list
    /\ netopia_requests w' = netopia_requests w.
Proof.
  intros Hpk Hin.
  unfold cancel_subscription, log_payment_event, bind. cbn.
  rewrite filter_after_update by reflexivity.
  rewrite (filter_primary_key s _ Hpk Hin). cbn.
  eexists. split; [reflexivity |]. cbn. repeat split; reflexivity.
Qed.

Lemma status_of_update (id : string) (f : Subscription -> Subscription)
      (w w' : World) :
  (forall s, sub_id (f s) = sub_id s) ->
  subscriptions w' =
  map (fun s => if String.eqb (sub_id s) id then f s else s) (subscriptions w) ->
  status_of id w'
  = map (fun s => sub_status (f s))
        (filter (fun s => String.eqb (sub_id s) id) (subscriptions w)).
Proof.
  intros Hf E. unfold status_of. rewrite E, filter_after_update by exact Hf.
  apply map_map.
Qed.

Lemma status_of_canceled (env : Env) (id reason : string) (w : World) :
  status_of id (snd (cancel_subscription env id reason w))
  = map (fun _ => "CANCELED") (status_of id w).
Proof.
  rewrite (status_of_update id (set_canceled (db_now env (ticks w))) w)
    by (reflexivity || apply cancel_subscription_subscriptions).
  unfold status_of. rewrite map_map. reflexivity.
Qed.

(** What [_process_trial_expiration] does after its first log line. *)
Lemma trial_expiration_unfold (env : Env) (r : SubscriptionRow) (w : World) :
  _process_trial_expiration env r w
  = let id := sub_id (row_sub r) in
    let w0 := set_logger (logger w ++ [(INFO, "Processing trial expiration for subscription " ++ id)]) w in
    if no_token r
    then (cancel_subscription env id "Trial expired - no payment method" ;;
          logger_info ("Cancelled subscription " ++ id ++ " - no payment method")) w0
    else
      try_except
        (_process_subscription_renewal env r ;;
         logger_info ("Successfully charged trial expiration for subscription " ++ id))
        (fun e =>
           cancel_subscription env id ("Trial expired - charge failed: " ++ exc_str e) ;;
           logger_info ("Cancelled subscription " ++ id ++ " - charge failed")) w0.
Proof.
  unfold _process_trial_expiration, bind at 1, logger_info at 1. cbn.
  destruct (no_token r); reflexivity.
Qed.

Lemma snd_then_log {A} (m : M A) (msg : string) (w : World) :
  subscriptions (snd ((m ;; logger_info msg) w)) = subscriptions (snd (m w))
  /\ profiles (snd ((m ;; logger_info msg) w)) = profiles (snd (m w))
  /\ payment_logs (snd ((m ;; logger_info msg) w)) = payment_logs (snd (m w))
  /\ netopia_requests (snd ((m ;; logger_info msg) w)) = netopia_requests (snd (m w))
  /\ fst ((m ;; logger_info msg) w)
     = match fst (m w) with Ok _ => Ok tt | Raise e => Raise e end.
Proof.
  unfold bind, logger_info. destruct (m w) as [[a | e] w1]; cbn; auto.
Qed.

(** C1, as the code has it. After [_process_trial_expiration] the
    subscription is CANCELED when it has no stored token and when the
    renewal raises: the gateway did not answer with a 200 holding an
    object, or it did and the driver refused the [netopia_order_id] of the
    reply.  When the charge is accepted and recorded (the id is absent,
    null or a string) the operation leaves the status as it was: it is not
    set to ACTIVE here. *)
Theorem trial_expiration_status (env : Env) (r : SubscriptionRow) (w : World) :
  let id := sub_id (row_sub r) in
  let w' := snd (_process_trial_expiration env r w) in
  if no_token r
  then status_of id w' = map (fun _ => "CANCELED") (status_of id w)
  else match accepted (gateway_reply env r (ticks w)) with
       | None => status_of id w' = map (fun _ => "CANCELED") (status_of id w)
       | Some body =>
           match text_id (json_get "netopia_order_id" body) with
           | None =>
               status_of id w' = map (fun _ => "CANCELED") (status_of id w)
           | Some _ => status_of id w' = status_of id w
           end
       end.
Proof.
  cbn zeta. rewrite trial_expiration_unfold. cbn zeta.
  set (w0 := set_logger _ w).
  assert (Hw0 : status_of (sub_id (row_sub r)) w0 = status_of (sub_id (row_sub r)) w)
    by reflexivity.
  destruct (no_token r).
  - unfold status_of at 1.
    rewrite (proj1 (snd_then_log _ _ w0)).
    fold (status_of (sub_id (row_sub r))
                    (snd (cancel_subscription env (sub_id (row_sub r))
                            "Trial expired - no payment method" w0))).
    rewrite status_of_canceled. now rewrite Hw0.
  - change (ticks w) with (ticks w0).
    destruct (accepted (gateway_reply env r (ticks w0))) as [body |] eqn:H;
      [destruct (text_id (json_get "netopia_order_id" body)) as [nid |] eqn:Hid |].
    + destruct (renewal_when_accepted env r w0 body nid H Hid)
        as (w1 & Hrun & Hsubs & _).
      unfold try_except, bind. rewrite Hrun. cbn.
      rewrite <- Hw0. unfold status_of.
      rewrite Hsubs, filter_after_update by reflexivity.
      rewrite map_map. reflexivity.
    + destruct (renewal_when_id_refused env r w0 body H Hid)
        as (w1 & Hrun & Hsubs & _).
      rewrite (try_except_raise _ _ _ _ _ (bind_raise _ _ _ _ _ Hrun)).
      unfold status_of at 1.
      rewrite (proj1 (snd_then_log _ _ w1)).
      rewrite cancel_subscription_subscriptions.
      rewrite Hsubs, filter_after_update by reflexivity.
      rewrite map_map. unfold status_of. rewrite map_map. reflexivity.
    + destruct (renewal_when_refused env r w0 H) as (w1 & Hrun & Hsubs & _).
      rewrite (try_except_raise _ _ _ _ _ (bind_raise _ _ _ _ _ Hrun)).
      unfold status_of at 1.
      rewrite (proj1 (snd_then_log _ _ w1)).
      rewrite cancel_subscription_subscriptions.
      rewrite Hsubs, filter_after_update by reflexivity.
      rewrite map_map. unfold status_of. rewrite map_map. reflexivity.
Qed.

(** C7. A trial subscription past its [trial_end] with no stored token is
    cancelled at once, without a charge attempt: its status becomes
    CANCELED, the profile of its user is set to the free tier, and one
    CANCELED event is appended whose payload carries a reason containing
    "no payment method".  [id] is the primary key of [subscriptions]. *)
Theorem trial_without_token_is_canceled (env : Env) (r : SubscriptionRow)
        (w : World) :
  NoDup (map sub_id (subscriptions w)) ->
  In (row_sub r) (subscriptions w) ->
  trial_where (db_now env (ticks w)) r = true ->
  no_token r = true ->
  let run := _process_trial_expiration env r w in
  fst run = Ok tt
  /\ status_of (sub_id (row_sub r)) (snd run) = ["CANCELED"]
  /\ map profile_id (profiles (snd run)) = map profile_id (profiles w)
  /\ (forall p, In p (profiles (snd run)) ->
                profile_id p = sub_user_id (row_sub r) ->
                profile_subscription_tier p = "free")
  /\ (exists ev reason,
         payment_logs (snd run) = (payment_logs w ++ [ev])%list
         /\ pl_status ev = Some "CANCELED"
         /\ pl_event_type ev = Some "SUBSCRIPTION_CANCELED"
         /\ pl_subscription_id ev = Some (sub_id (row_sub r))
         /\ pl_raw_payload ev = PayloadCancel reason true
         /\ contains "no payment method" reason = true)
  /\ netopia_requests (snd run) = netopia_requests w.
Proof.
  intros Hpk Hin _ Hno. cbn zeta.
  rewrite trial_expiration_unfold. cbn zeta. rewrite Hno.
  set (w0 := set_logger _ w).
  destruct (cancel_subscription_run env (row_sub r)
              "Trial expired - no payment method" w0 Hpk Hin)
    as (w1 & Hrun & Hsubs & Hprof & Hlogs & Hreq).
  rewrite (bind_ok _ _ _ _ _ Hrun). cbn [logger_info fst snd].
  split; [reflexivity |].
  split.
  { unfold status_of. cbn [subscriptions set_logger]. rewrite Hsubs.
    rewrite filter_after_update by reflexivity.
    change (subscriptions w0) with (subscriptions w).
    rewrite (filter_primary_key _ _ Hpk Hin). reflexivity. }
  cbn [profiles payment_logs netopia_requests set_logger].
  rewrite Hprof, Hlogs, Hreq. cbn [profiles payment_logs netopia_requests set_logger w0].
  split.
  { rewrite map_map. apply map_ext. intros p.
    destruct (String.eqb (profile_id p) (sub_user_id (row_sub r))); reflexivity. }
  split.
  { intros p Hp Hid. apply in_map_update in Hp as (q & _ & ->).
    destruct (String.eqb_spec (profile_id q) (sub_user_id (row_sub r)));
      [reflexivity | contradiction]. }
  split; [| reflexivity].
  eexists. exists "Trial expired - no payment method".
  split; [reflexivity |]. cbn. repeat split; reflexivity.
Qed.

(** C10. The period write assigns [current_period_start],
    [current_period_end] and [updated_at] and nothing else: every other
    column of every subscription, and every other table, is as before.
    Hence a TRIALING subscription with a token whose charge the gateway
    accepts, with a reply whose [netopia_order_id] is absent, null or a
    string, is still TRIALING, with the same [trial_end] and token, after
    [_process_trial_expiration], and the trial queue of the resulting state
    selects it again.  The database clock does not run backwards. *)
Theorem period_write_frame (env : Env) (r : SubscriptionRow) (w : World)
        (body : JsonObject) (nid : option string) :
  (forall i j, (i <= j)%nat -> db_now env i <= db_now env j) ->
  In r (subscriptions_with_tier w) ->
  trial_where (db_now env (ticks w)) r = true ->
  no_token r = false ->
  accepted (gateway_reply env r (ticks w)) = Some body ->
  text_id (json_get "netopia_order_id" body) = Some nid ->
  (forall sid t w0,
      let w1 := snd (update_subscription_period env sid t w0) in
      map untouched_columns (subscriptions w1)
      = map untouched_columns (subscriptions w0)
      /\ (forall s, In s (subscriptions w0) -> sub_id s <> sid ->
                    In s (subscriptions w1))
      /\ subscription_tiers w1 = subscription_tiers w0
      /\ orders w1 = orders w0
      /\ payment_logs w1 = payment_logs w0
      /\ profiles w1 = profiles w0)
  /\ (let run := _process_trial_expiration env r w in
      fst run = Ok tt
      /\ map untouched_columns (subscriptions (snd run))
         = map untouched_columns (subscriptions w)
      /\ exists r',
          In r' (rows_of (get_trial_subscriptions env) (snd run))
          /\ untouched_columns (row_sub r') = untouched_columns (row_sub r)
          /\ sub_status (row_sub r') = "TRIALING").
Proof.
  intros Hmono Hrow Htrial Htok Hacc Hid. split.
  - intros sid t w0. cbn. repeat split.
    + rewrite map_map. apply map_ext. intros s.
      destruct (String.eqb (sub_id s) sid); reflexivity.
    + intros s Hs Hne. apply in_map_iff. exists s. split; [| exact Hs].
      destruct (String.eqb_spec (sub_id s) sid); [contradiction | reflexivity].
  - cbn zeta. rewrite trial_expiration_unfold. cbn zeta. rewrite Htok.
    set (w0 := set_logger _ w).
    destruct (renewal_when_accepted env r w0 body nid Hacc Hid)
      as (w1 & Hrun & Hsubs & _ & _ & Htiers & _ & Hticks).
    rewrite (try_except_ok _ _ _ _ _ (bind_ok _ _ _ _ _ Hrun)).
    cbn [logger_info fst snd].
    split; [reflexivity |].
    set (f := set_period (db_now env (6 + ticks w0))
                (py_now env (5 + ticks w0)
                 + days (interval_length (row_interval r)))) in *.
    split.
    { cbn [subscriptions set_logger]. rewrite Hsubs, map_map.
      apply map_ext. intros s.
      destruct (String.eqb (sub_id s) (sub_id (row_sub r))); reflexivity. }
    apply in_subscriptions_with_tier in Hrow as (s & st & Hs & Hst & Hfk & ->).
    cbn [row_sub] in *.
    exists (mkRow (f s) (tier_price st) (tier_currency st) (tier_interval st)
                  (tier_name st)).
    apply andb_prop in Htrial as [Hstatus Hend]. cbn [row_sub] in *.
    apply String.eqb_eq in Hstatus.
    split; [| split; [reflexivity | exact Hstatus]].
    unfold rows_of, get_trial_subscriptions. cbn [fst].
    apply in_order_by, filter_In. split.
    + apply in_subscriptions_with_tier. exists (f s), st.
      cbn [subscriptions subscription_tiers set_logger].
      rewrite Hsubs, Htiers. repeat split; try assumption.
      apply in_map_iff. exists s. split; [| exact Hs].
      now rewrite String.eqb_refl.
    + unfold trial_where. cbn [row_sub f set_period sub_status sub_trial_end].
      rewrite Hstatus. cbn [String.eqb andb].
      unfold ts_at_or_before in *.
      destruct (sub_trial_end s) as [t |]; [| discriminate].
      apply Z.leb_le in Hend. apply Z.leb_le.
      etransitivity; [exact Hend |]. apply Hmono.
      cbn [ticks set_logger]. rewrite Hticks. cbn [ticks set_logger w0]. lia.
Qed.

(** * The gateway client *)

(** C6, as the code has it. [create_recurring_payment] sends one POST with
    a 30-second timeout.  A 200 whose body decodes returns the decoded
    value, whatever it is; another status whose body decodes to an object
    raises a plain [Exception] whose text is "Netopia API error: " followed
    by the [message] member of the body ("Unknown error" when it has none);
    another status whose body decodes to anything else ([None] for an empty
    body, a list, a string, a number) raises the [AttributeError] of
    [result.get]; an exception raised by the POST, or by decoding the body
    whatever the status, is raised again unchanged.  The script defines no
    failure types of its own. *)
Theorem create_recurring_payment_outcomes (env : Env) (od : OrderData)
        (w : World) :
  let req := mkPost od (py_now env (ticks w) * 1000) (py_now env (1 + ticks w)) 30 in
  let run := create_recurring_payment env od w in
  netopia_requests (snd run) = (netopia_requests w ++ [req])%list
  /\ post_timeout req = 30
  /\ match netopia_post env (2 + ticks w) req with
     | Responded status body =>
         if status =? 200
         then fst run = Ok body
         else match body with
              | JObj fields =>
                  fst run
                  = Raise (mkExc "Exception"
                             ("Netopia API error: "
                              ++ match json_get "message" fields with
                                 | Some v => str_json env v
                                 | None => "Unknown error"
                                 end))
              | _ =>
                  fst run
                  = Raise (mkExc "AttributeError"
                             ("'" ++ type_name body
                              ++ "' object has no attribute 'get'"))
              end
     | PostRaises e => fst run = Raise e
     | JsonRaises _ e => fst run = Raise e
     end.
Proof.
  cbn zeta.
  unfold create_recurring_payment, session_post, datetime_now, logger_error,
    try_except, bind, ret, raise.
  cbn.
  destruct (netopia_post env _ _) as [e | st e | st body]; cbn;
    [auto | auto |].
  destruct (st =? 200); cbn; [auto |].
  destruct body; cbn; auto.
Qed.

(** * The retry job *)

(** C2, as the code has it. [_retry_payment] changes no stored row (the
    retry count of the failed event stays as it was) and sends nothing to
    the gateway; all it writes is at most one new event, of type
    PAYMENT_RETRY and status RETRYING, whose retry count is the count of the
    failed event plus one. *)
Theorem retry_payment_effect (env : Env) (p : FailedPayment) (w : World) :
  let run := _retry_payment env p w in
  subscriptions (snd run) = subscriptions w
  /\ subscription_tiers (snd run) = subscription_tiers w
  /\ orders (snd run) = orders w
  /\ profiles (snd run) = profiles w
  /\ netopia_requests (snd run) = netopia_requests w
  /\ exists new,
      payment_logs (snd run) = (payment_logs w ++ new)%list
      /\ (List.length new <= 1)%nat
      /\ forall ev, In ev new ->
                    pl_retry_count ev = fp_retry_count p + 1
                    /\ pl_status ev = Some "RETRYING"
                    /\ pl_event_type ev = Some "PAYMENT_RETRY"
                    /\ pl_order_id ev = fp_order_id p.
Proof.
  cbn zeta.
  unfold _retry_payment, log_payment_event, json_dumps, logger_info,
    logger_error, try_except, bind, ret, raise.
  cbn [ev_raw_payload].
  destruct (json_serializable (PayloadOriginalPayment p)); cbn.
  - repeat split. eexists. split; [reflexivity |]. split; [cbn; lia |].
    intros ev [<- | []]. cbn. repeat split.
  - repeat split. exists []. rewrite app_nil_r.
    split; [reflexivity |]. split; [cbn; lia |]. intros ev [].
Qed.

(** * The job runner *)

Lemma for_each_total {A} (body : A -> M unit) (xs : list A) (w : World) :
  (forall x v, fst (body x v) = Ok tt) ->
  for_each xs body w = (Ok tt, fold_left (fun v x => snd (body x v)) xs w).
Proof.
  intros Hbody. revert w. induction xs as [|x xs IH]; intros w; cbn.
  - reflexivity.
  - unfold bind. specialize (Hbody x w).
    destruct (body x w) as [[[] | e] w1]; cbn in *; [apply IH | discriminate].
Qed.

Lemma bind_fst_ok {B} (m : M unit) (k : unit -> M B) (w : World) :
  fst (m w) = Ok tt -> bind m k w = k tt (snd (m w)).
Proof.
  unfold bind. destruct (m w) as [[[] | e] w1]; cbn; [reflexivity | discriminate].
Qed.

Lemma trial_step_total (env : Env) (r : SubscriptionRow) (w : World) :
  fst (trial_step env r w) = Ok tt.
Proof.
  unfold trial_step, try_except.
  destruct (_process_trial_expiration env r w) as [[[] | e] w1]; reflexivity.
Qed.

Lemma retry_step_total (env : Env) (p : FailedPayment) (w : World) :
  fst (retry_step env p w) = Ok tt.
Proof.
  unfold retry_step, try_except.
  destruct (_retry_payment env p w) as [[[] | e] w1]; reflexivity.
Qed.

Lemma process_recurring_billing_returns (env : Env) (w : World) :
  fst (process_recurring_billing env w) = Ok tt.
Proof.
  unfold process_recurring_billing, bind at 1, logger_info at 1, try_except.
  cbn. match goal with |- fst (match ?b with _ => _ end) = _ =>
                       destruct b as [[[] | e] w1] end; reflexivity.
Qed.

Lemma process_trial_periods_run (env : Env) (w : World) :
  let v := snd (logger_info "Processing trial period expirations..." w) in
  let rows := rows_of (get_trial_subscriptions env) v in
  let v0 := snd (logger_info ("Found " ++ str_nat (List.length rows)
                              ++ " trial subscriptions to process") (tick v)) in
  process_trial_periods env w
  = (Ok tt, fold_left (fun u r => snd (trial_step env r u)) rows v0).
Proof.
  cbn zeta.
  unfold process_trial_periods, bind at 1, logger_info at 1. cbn [fst snd].
  apply try_except_ok.
  unfold bind at 1, get_trial_subscriptions at 1.
  unfold bind at 1, logger_info at 1.
  apply (for_each_total (trial_step env)), trial_step_total.
Qed.

Lemma process_payment_retries_run (env : Env) (config : Config) (w : World) :
  let v := snd (logger_info "Processing payment retries..." w) in
  let rows := rows_of (get_failed_payments env config) v in
  let v0 := snd (logger_info ("Found " ++ str_nat (List.length rows)
                              ++ " failed payments to retry") (tick v)) in
  process_payment_retries env config w
  = (Ok tt, fold_left (fun u p => snd (retry_step env p u)) rows v0).
Proof.
  cbn zeta.
  unfold process_payment_retries, bind at 1, logger_info at 1. cbn [fst snd].
  apply try_except_ok.
  unfold bind at 1, get_failed_payments at 1.
  unfold bind at 1, logger_info at 1.
  apply (for_each_total (retry_step env)), retry_step_total.
Qed.

(** C5, as the code has it. [run_all_jobs] runs billing, then trials, then
    retries, each job starting from the state the previous one left,
    whatever happened in it, and returns [None]: no summary count is
    produced.  In the trial and retry jobs the step for one item never
    raises, so every row of the queue is processed in turn. *)
Theorem run_all_jobs_sequence (env : Env) (config : Config) (w : World) :
  let w0 := snd (logger_info "Starting subscription cron jobs..." w) in
  let w1 := snd (process_recurring_billing env w0) in
  let w2 := snd (process_trial_periods env w1) in
  let w3 := snd (process_payment_retries env config w2) in
  run_all_jobs env config w
  = (Ok tt, snd (logger_info "All cron jobs completed successfully" w3))
  /\ (forall r v, fst (trial_step env r v) = Ok tt)
  /\ (forall p v, fst (retry_step env p v) = Ok tt)
  /\ (forall v,
         let v1 := snd (logger_info "Processing trial period expirations..." v) in
         let rows := rows_of (get_trial_subscriptions env) v1 in
         let v2 := snd (logger_info ("Found " ++ str_nat (List.length rows)
                                     ++ " trial subscriptions to process")
                                    (tick v1)) in
         snd (process_trial_periods env v)
         = fold_left (fun u r => snd (trial_step env r u)) rows v2)
  /\ (forall v,
         let v1 := snd (logger_info "Processing payment retries..." v) in
         let rows := rows_of (get_failed_payments env config) v1 in
         let v2 := snd (logger_info ("Found " ++ str_nat (List.length rows)
                                     ++ " failed payments to retry")
                                    (tick v1)) in
         snd (process_payment_retries env config v)
         = fold_left (fun u p => snd (retry_step env p u)) rows v2).
Proof.
  cbn zeta. split; [| split; [| split; [| split]]].
  - unfold run_all_jobs, bind at 1, logger_info at 1. cbn [fst snd].
    apply try_except_ok.
    rewrite bind_fst_ok by apply process_recurring_billing_returns.
    rewrite bind_fst_ok by (now rewrite process_trial_periods_run).
    rewrite bind_fst_ok by (now rewrite process_payment_retries_run).
    reflexivity.
  - intros r v. apply trial_step_total.
  - intros p v. apply retry_step_total.
  - intros v. now rewrite process_trial_periods_run.
  - intros v. now rewrite process_payment_retries_run.
Qed.

(** * The scenarios, run *)

Import Scenario.

Lemma due_row_not_serializable (now : Z) (r : SubscriptionRow) :
  due_where now r = true -> json_serializable (PayloadSubscription r) = false.
Proof.
  intros H. apply due_where_spec in H as (_ & _ & (t & E & _) & _).
  cbn. rewrite E. cbn. rewrite !andb_false_r. reflexivity.
Qed.

(** C3, at a failing input. Two subscriptions are due and the gateway times
    out on the first one.  The handler of [process_recurring_billing] builds
    the FAILED event with the row itself as payload; the row holds
    [datetime] values, [json.dumps] raises, and the exception leaves the
    loop: no FAILED event is stored and the second subscription is never
    attempted. *)
Lemma failed_renewal_is_not_recorded :
  let run := process_recurring_billing (env_of time_out) billing_world in
  map (fun r => sub_id (row_sub r))
      (rows_of (get_due_subscriptions (env_of time_out)) billing_world)
  = ["sub_1"; "sub_4"]
  /\ fst run = Ok tt
  /\ subscriptions (snd run) = subscriptions billing_world
  /\ payment_logs (snd run) = []
  /\ map (fun q => od_subscription_id (post_order q)) (netopia_requests (snd run))
     = ["sub_1"]
  /\ last (logger (snd run)) (INFO, "")
     = (ERROR, "Error in recurring billing process: Object of type datetime is not JSON serializable").
Proof. vm_compute. repeat split; reflexivity. Qed.

(** C1 fails on a trial with a token whose charge is accepted: the
    subscription is past its trial end, the operation returns normally, and
    the status is still TRIALING, neither ACTIVE nor CANCELED. *)
Lemma charged_trial_stays_trialing :
  let run := _process_trial_expiration (env_of accept) (row_of S3) trial_world in
  trial_where (db_now (env_of accept) (ticks trial_world)) (row_of S3) = true
  /\ fst run = Ok tt
  /\ status_of "sub_3" (snd run) = ["TRIALING"]
  /\ ~ In "ACTIVE" (status_of "sub_3" (snd run))
  /\ ~ In "CANCELED" (status_of "sub_3" (snd run)).
Proof.
  vm_compute. repeat split; try reflexivity; intros [H | []]; discriminate H.
Qed.

(** C2 fails on the failed payment of the test data (retry count 1, maximum
    3, two hours old): it is in the retry queue, and after [_retry_payment]
    its stored retry count is still 1, not 2, and nothing was sent to the
    gateway. *)
Lemma retry_leaves_stored_count :
  let env := env_of accept in
  let run := _retry_payment env P1 retry_world in
  rows_of (get_failed_payments env default_config) retry_world = [P1]
  /\ map pl_retry_count (payment_logs (snd run)) = [1]
  /\ ~ In 2 (map pl_retry_count (payment_logs (snd run)))
  /\ netopia_requests (snd run) = [].
Proof.
  vm_compute. repeat split; try reflexivity. intros [H | []]; discriminate H.
Qed.

(** C5 fails on a run in which the first of two due renewals times out:
    the billing loop is left at once, the second due subscription is never
    attempted, no event records the failure, and the invocation returns
    [None] after a closing log line without any count. *)
Lemma run_all_jobs_gives_no_summary :
  let env := env_of time_out in
  let run := run_all_jobs env default_config billing_world in
  List.length (rows_of (get_due_subscriptions env) billing_world) = 2%nat
  /\ fst run = Ok tt
  /\ map (fun q => od_subscription_id (post_order q)) (netopia_requests (snd run))
     = ["sub_1"]
  /\ payment_logs (snd run) = []
  /\ last (logger (snd run)) (INFO, "")
     = (INFO, "All cron jobs completed successfully").
Proof. vm_compute. repeat split; reflexivity. Qed.

(** C6 fails on a 502 whose body is not JSON: the status is not a success,
    yet what the caller gets is the decoding error of the HTTP library, not
    the rejection carrying a reason. *)
Lemma undecodable_error_page_is_not_a_rejection :
  let run := create_recurring_payment (env_of bad_gateway) OD1 billing_world in
  fst run = Raise html_error_page
  /\ exc_class html_error_page <> "Exception"
  /\ forall reason,
      fst run <> Raise (mkExc "Exception" ("Netopia API error: " ++ reason)).
Proof.
  cbn zeta.
  assert (E : fst (create_recurring_payment (env_of bad_gateway) OD1 billing_world)
              = Raise html_error_page) by (vm_compute; reflexivity).
  rewrite E. split; [reflexivity |]. split; [discriminate |].
  intros reason H. discriminate H.
Qed.

Lemma scenario_primary_key (w : World) :
  w = billing_world \/ w = trial_world ->
  NoDup (map sub_id (subscriptions w)) /\ NoDup (map tier_id (subscription_tiers w)).
Proof.
  intros [-> | ->]; cbn; split;
    repeat (constructor; [cbn; intuition discriminate |]); constructor.
Defined.

(** C7 on the trial of the test data, which has no token. *)
Lemma trial_without_token_is_canceled_witness :
  let run := _process_trial_expiration (env_of accept) (row_of S2) trial_world in
  fst run = Ok tt
  /\ status_of "sub_2" (snd run) = ["CANCELED"]
  /\ map profile_subscription_tier (profiles (snd run))
     = ["pro"; "free"; "pro"; "pro"].
Proof.
  cbn zeta.
  destruct (trial_without_token_is_canceled (env_of accept) (row_of S2) trial_world)
    as (H1 & H2 & _).
  - apply (scenario_primary_key trial_world). right. reflexivity.
  - cbn. auto.
  - vm_compute. reflexivity.
  - vm_compute. reflexivity.
  - split; [exact H1 |]. split; [exact H2 |]. vm_compute. reflexivity.
Defined.

(** C8 on a table holding a due subscription, two trials and a second due
    subscription. *)
Lemma get_due_subscriptions_exact_witness :
  exists rows,
    fst (get_due_subscriptions (env_of accept)
           (world_of [S1; S2; S3; S4] [] [])) = Ok rows
    /\ map (fun r => sub_id (row_sub r)) rows = ["sub_1"; "sub_4"]
    /\ NoDup (map (fun r => sub_id (row_sub r)) rows).
Proof.
  destruct (get_due_subscriptions_exact (env_of accept)
              (world_of [S1; S2; S3; S4] [] []))
    as (rows & Hrows & _ & _ & Hnd & _).
  - cbn. repeat (constructor; [cbn; intuition discriminate |]). constructor.
  - cbn. repeat (constructor; [cbn; intuition discriminate |]). constructor.
  - intros s Hs. exists pro. split; [left; reflexivity |].
    cbn in Hs. destruct Hs as [<- | [<- | [<- | [<- | []]]]]; reflexivity.
  - exists rows. split; [exact Hrows |]. split; [| exact Hnd].
    vm_compute in Hrows. injection Hrows as <-. reflexivity.
Defined.

(** C9 on the monthly subscription of the test data: the new period ends
    30 days after the clock reading of the sixth interaction. *)
Lemma renewal_new_period_witness :
  let run := _process_subscription_renewal (env_of accept) (row_of S1) billing_world in
  accepted (gateway_reply (env_of accept) (row_of S1) 0) <> None
  /\ fst run = Ok tt
  /\ map sub_current_period_end (subscriptions (snd run))
     = [Some (t0 + 5 + 30 * 86400); sub_current_period_end S4].
Proof.
  cbn zeta. split; [vm_compute; discriminate |].
  destruct (renewal_new_period (env_of accept) (row_of S1) billing_world
              [("netopia_order_id", JStr "G-order_0"); ("status", JStr "PROCESSING")]
              (Some "G-order_0"))
    as (H1 & _).
  - vm_compute. reflexivity.
  - reflexivity.
  - split; [exact H1 | vm_compute; reflexivity].
Defined.

(** C9 fails as stated, with one "now" for both columns.  On the monthly
    subscription of the test data, with the clock of the Python host one
    hour behind the database's, the renewal succeeds and stores a period
    that starts at the database time of the write and ends 30 days after
    the earlier reading of the other clock: no instant is both the start
    and 30 days before the end. *)
Lemma renewal_period_spans_two_clocks :
  let env := behind (env_of accept) in
  let run := _process_subscription_renewal env (row_of S1) billing_world in
  fst run = Ok tt
  /\ map (fun s => (sub_current_period_start s, sub_current_period_end s))
         (filter (fun s => String.eqb (sub_id s) "sub_1") (subscriptions (snd run)))
     = [(Some (t0 + 6), Some (t0 + 5 - 3600 + 30 * 86400))]
  /\ forall now s,
      In s (subscriptions (snd run)) -> sub_id s = "sub_1" ->
      ~ (sub_current_period_start s = Some now
         /\ sub_current_period_end s = Some (now + 30 * 86400)).
Proof.
  intros env run.
  assert (E : map (fun s => (sub_current_period_start s, sub_current_period_end s))
                  (filter (fun s => String.eqb (sub_id s) "sub_1")
                          (subscriptions (snd run)))
              = [(Some (t0 + 6), Some (t0 + 5 - 3600 + 30 * 86400))])
    by (vm_compute; reflexivity).
  split; [vm_compute; reflexivity |]. split; [exact E |].
  intros now s Hs Hid [Hstart Hend].
  assert (Hin : In (sub_current_period_start s, sub_current_period_end s)
                   (map (fun s => (sub_current_period_start s, sub_current_period_end s))
                        (filter (fun s => String.eqb (sub_id s) "sub_1")
                                (subscriptions (snd run))))).
  { apply in_map_iff. exists s. split; [reflexivity |].
    apply filter_In. split; [exact Hs |]. rewrite Hid. reflexivity. }
  rewrite E, Hstart, Hend in Hin.
  destruct Hin as [Hin | []]. injection Hin as H1 H2. lia.
Qed.

(** C10 on the trial of the test data that holds a token. *)
Lemma period_write_frame_witness :
  let run := _process_trial_expiration (env_of accept) (row_of S3) trial_world in
  fst run = Ok tt
  /\ exists r', In r' (rows_of (get_trial_subscriptions (env_of accept)) (snd run))
                /\ sub_id (row_sub r') = "sub_3"
                /\ sub_status (row_sub r') = "TRIALING".
Proof.
  cbn zeta.
  destruct (period_write_frame (env_of accept) (row_of S3) trial_world
              [("netopia_order_id", JStr "G-order_0"); ("status", JStr "PROCESSING")]
              (Some "G-order_0"))
    as (_ & H1 & _ & r' & Hin & Hcols & Hst).
  - intros i j Hij. change (clock i <= clock j). unfold clock. lia.
  - cbn. auto.
  - vm_compute. reflexivity.
  - vm_compute. reflexivity.
  - vm_compute. reflexivity.
  - reflexivity.
  - split; [exact H1 |]. exists r'. split; [exact Hin |]. split; [| exact Hst].
    apply (f_equal (fun c => fst (fst (fst (fst (fst (fst (fst c)))))))) in Hcols.
    exact Hcols.
Defined.

(** * Further properties of the queries *)

Lemma trial_where_spec (now : Z) (r : SubscriptionRow) :
  trial_where now r = true <->
  sub_status (row_sub r) = "TRIALING"
  /\ exists t, sub_trial_end (row_sub r) = Some t /\ t <= now.
Proof.
  unfold trial_where, ts_at_or_before.
  rewrite andb_true_iff, String.eqb_eq.
  destruct (sub_trial_end (row_sub r)) as [t |].
  - rewrite Z.leb_le. split.
    + intros [? ?]. eauto.
    + intros (? & t' & [= <-] & ?). auto.
  - split; [intros [_ ?] | intros (_ & t' & ? & _)]; discriminate.
Qed.

(** X1. [get_trial_subscriptions] returns exactly the subscriptions that are
    TRIALING with a [trial_end] at or before [NOW()], earliest trial end
    first and each once; neither the token nor [auto_renew] is consulted.
    The keys of the schema are the hypotheses. *)
Theorem get_trial_subscriptions_exact (env : Env) (w : World) :
  NoDup (map sub_id (subscriptions w)) ->
  NoDup (map tier_id (subscription_tiers w)) ->
  (forall s, In s (subscriptions w) ->
             exists st, In st (subscription_tiers w) /\ sub_tier_id s = tier_id st) ->
  let rows := rows_of (get_trial_subscriptions env) w in
  (forall s, In s (map row_sub rows) <->
             In s (subscriptions w)
             /\ sub_status s = "TRIALING"
             /\ exists t, sub_trial_end s = Some t /\ t <= db_now env (ticks w))
  /\ StronglySorted
       (fun a b => exists ta tb,
            sub_trial_end (row_sub a) = Some ta
            /\ sub_trial_end (row_sub b) = Some tb /\ ta <= tb)
       rows
  /\ NoDup (map (fun r => sub_id (row_sub r)) rows).
Proof.
  intros Hpk Htiers Hfk.
  unfold rows_of, get_trial_subscriptions. cbn [fst].
  set (key := fun r : SubscriptionRow => sub_trial_end (row_sub r)).
  set (now := db_now env (ticks w)).
  set (sel := filter (trial_where now) (subscriptions_with_tier w)).
  assert (Hin : forall r, In r (order_by key sel) <->
                          In r (subscriptions_with_tier w)
                          /\ trial_where now r = true).
  { intros r. rewrite in_order_by. apply filter_In. }
  cbn zeta. split; [| split].
  - intros s. rewrite in_map_iff. split.
    + intros (r & <- & Hr). apply Hin in Hr as [Hr Hsel].
      apply in_subscriptions_with_tier in Hr as (s & st & Hs & _ & _ & ->).
      apply trial_where_spec in Hsel. cbn [row_sub] in *. tauto.
    + intros (Hs & Hrest). destruct (Hfk s Hs) as (st & Hst & E).
      exists (mkRow s (tier_price st) (tier_currency st) (tier_interval st)
                    (tier_name st)).
      split; [reflexivity |]. apply Hin. split.
      * apply in_subscriptions_with_tier. exists s, st. auto.
      * apply trial_where_spec. exact Hrest.
  - apply StronglySorted_weaken with (R := key_le key);
      [| apply order_by_sorted].
    intros a b Ha Hb Hle.
    apply Hin in Ha as [_ Ha]. apply Hin in Hb as [_ Hb].
    apply trial_where_spec in Ha as (_ & ta & Ea & _).
    apply trial_where_spec in Hb as (_ & tb & Eb & _).
    exists ta, tb. repeat split; try assumption.
    unfold key_le, key in Hle. rewrite Ea, Eb in Hle.
    apply Z.leb_le, Hle.
  - apply (Permutation_NoDup
             (Permutation_map (fun r => sub_id (row_sub r)) (order_by_perm key sel))).
    apply where_keeps_primary_key, NoDup_subscriptions_with_tier; assumption.
Qed.

Lemma in_join_failed (w : World) (pl : PaymentLog) (p : FailedPayment) :
  In p (join_failed w pl) ->
  exists o, In o (orders w)
            /\ pl_order_id pl = Some (order_id o)
            /\ fp_order p = o
            /\ fp_order_id p = pl_order_id pl
            /\ fp_event_type p = pl_event_type pl
            /\ fp_retry_count p = pl_retry_count pl
            /\ fp_created_at p = pl_created_at pl.
Proof.
  unfold join_failed. intros H. apply in_flat_map in H as (o & Ho & Hp).
  apply filter_In in Ho as [Ho Hid].
  exists o. split; [exact Ho |]. split.
  { unfold opt_string_eqb in Hid. destruct (pl_order_id pl) as [x |];
      [| discriminate]. apply String.eqb_eq in Hid. now subst. }
  destruct (filter _ (subscriptions w)) as [| s ss].
  - destruct Hp as [<- | []]. cbn. auto 10.
  - apply in_map_iff in Hp as (s' & <- & _). cbn. auto 10.
Qed.

Lemma join_failed_complete (w : World) (pl : PaymentLog) (o : Order) :
  In o (orders w) -> pl_order_id pl = Some (order_id o) ->
  exists p, In p (join_failed w pl)
            /\ fp_order p = o
            /\ fp_event_type p = pl_event_type pl
            /\ fp_retry_count p = pl_retry_count pl
            /\ fp_created_at p = pl_created_at pl.
Proof.
  intros Ho Hid. unfold join_failed.
  assert (Hsel : In o (filter (fun o0 => opt_string_eqb (pl_order_id pl) (order_id o0))
                              (orders w))).
  { apply filter_In. split; [exact Ho |]. rewrite Hid. cbn.
    apply String.eqb_refl. }
  destruct (filter (fun s => opt_string_eqb (order_subscription_id o) (sub_id s))
                   (subscriptions w)) as [| s ss] eqn:E.
  - eexists. split.
    + apply in_flat_map. exists o. split; [exact Hsel |]. rewrite E.
      left. reflexivity.
    + cbn. auto.
  - eexists. split.
    + apply in_flat_map. exists o. split; [exact Hsel |]. rewrite E.
      left. reflexivity.
    + cbn. auto.
Qed.

(** X2. With a retry limit the driver can encode for the integer column,
    [get_failed_payments] selects the PAYMENT_FAILED events that are
    joined to an order, have fewer than [max_retry_attempts] retries and
    were created in the last 24 hours, oldest first: an event whose retries
    are used up, one older than the window, and one without an order are
    never returned, and every event that qualifies is. *)
Theorem get_failed_payments_selects (env : Env) (config : Config) (w : World) :
  fits_integer_column (max_retry_attempts config) ->
  let rows := rows_of (get_failed_payments env config) w in
  let now := db_now env (ticks w) in
  (forall p, In p rows ->
             fp_event_type p = Some "PAYMENT_FAILED"
             /\ fp_retry_count p < max_retry_attempts config
             /\ now - 24 * 3600 <= fp_created_at p
             /\ In (fp_order p) (orders w)
             /\ fp_order_id p = Some (order_id (fp_order p)))
  /\ (forall pl o,
         In pl (payment_logs w) -> In o (orders w) ->
         pl_order_id pl = Some (order_id o) ->
         pl_event_type pl = Some "PAYMENT_FAILED" ->
         pl_retry_count pl < max_retry_attempts config ->
         now - 24 * 3600 <= pl_created_at pl ->
         exists p, In p rows /\ fp_order p = o
                   /\ fp_retry_count p = pl_retry_count pl
                   /\ fp_created_at p = pl_created_at pl)
  /\ StronglySorted (fun a b => fp_created_at a <= fp_created_at b) rows.
Proof.
  intros _. cbn zeta. unfold rows_of, get_failed_payments. cbn [fst].
  set (now := db_now env (ticks w)).
  set (key := fun p : FailedPayment => Some (fp_created_at p)).
  assert (Hwhere : forall p,
             failed_where (max_retry_attempts config) now p = true <->
             fp_event_type p = Some "PAYMENT_FAILED"
             /\ fp_retry_count p < max_retry_attempts config
             /\ now - 24 * 3600 <= fp_created_at p).
  { intros p. unfold failed_where, opt_string_eqb, hours.
    rewrite !andb_true_iff, Z.ltb_lt, Z.leb_le.
    destruct (fp_event_type p) as [t |].
    - rewrite String.eqb_eq. split.
      + intros [[-> ?] ?]. auto.
      + intros ([= ->] & ? & ?). auto.
    - split; [intros [[? _] _] | intros [? _]]; discriminate. }
  split; [| split].
  - intros p Hp. apply in_order_by, filter_In in Hp as [Hp Hsel].
    apply Hwhere in Hsel as (? & ? & ?).
    apply in_flat_map in Hp as (pl & _ & Hp).
    apply in_join_failed in Hp as (o & Ho & Hid & <- & Hoid & _).
    rewrite Hoid, Hid. auto.
  - intros pl o Hpl Ho Hid Hty Hcount Hage.
    destruct (join_failed_complete w pl o Ho Hid) as (p & Hp & Hpo & Ht & Hc & Ha).
    exists p. split; [| auto].
    apply in_order_by, filter_In. split.
    + apply in_flat_map. eauto.
    + apply Hwhere. rewrite Ht, Hc, Ha. auto.
  - apply StronglySorted_weaken with (R := key_le key);
      [| apply order_by_sorted].
    intros a b _ _ Hle. unfold key_le, key in Hle. cbn in Hle.
    apply Z.leb_le, Hle.
Qed.

(** * Further properties of the writes *)

Lemma map_update_absent {A} (p : A -> bool) (f : A -> A) (l : list A) :
  (forall x, In x l -> p x = false) ->
  map (fun x => if p x then f x else x) l = l.
Proof.
  intros H. induction l as [| x l IH]; cbn; [reflexivity |].
  rewrite (H x (or_introl eq_refl)), IH; [reflexivity |].
  intros y Hy. apply H. right. exact Hy.
Qed.

Lemma filter_absent {A} (p : A -> bool) (l : list A) :
  (forall x, In x l -> p x = false) -> filter p l = [].
Proof.
  intros H. induction l as [| x l IH]; cbn; [reflexivity |].
  rewrite (H x (or_introl eq_refl)). apply IH.
  intros y Hy. apply H. right. exact Hy.
Qed.

(** X3. Cancelling an id that no subscription carries changes no
    subscription and no profile and still returns normally, having
    appended a CANCELED event for that id. *)
Theorem cancel_unknown_subscription (env : Env) (id reason : string)
        (w : World) :
  (forall s, In s (subscriptions w) -> sub_id s <> id) ->
  let run := cancel_subscription env id reason w in
  fst run = Ok tt
  /\ subscriptions (snd run) = subscriptions w
  /\ profiles (snd run) = profiles w
  /\ orders (snd run) = orders w
  /\ exists ev,
      payment_logs (snd run) = (payment_logs w ++ [ev])%list
      /\ pl_status ev = Some "CANCELED"
      /\ pl_event_type ev = Some "SUBSCRIPTION_CANCELED"
      /\ pl_subscription_id ev = Some id
      /\ pl_raw_payload ev = PayloadCancel reason true.
Proof.
  intros Habsent.
  assert (Hno : forall s, In s (subscriptions w) -> String.eqb (sub_id s) id = false).
  { intros s Hs. apply String.eqb_neq. apply Habsent, Hs. }
  cbn zeta. unfold cancel_subscription, log_payment_event, bind. cbn.
  rewrite (map_update_absent _ _ _ Hno), (filter_absent _ _ Hno). cbn.
  repeat split. eexists. split; [reflexivity |]. cbn. repeat split.
Qed.

Lemma cancel_subscription_steps (env : Env) (s : Subscription)
      (reason : string) (w : World) :
  NoDup (map sub_id (subscriptions w)) ->
  In s (subscriptions w) ->
  exists w',
    cancel_subscription env (sub_id s) reason w = (Ok tt, w')
    /\ subscriptions w' =
       map (fun x => if String.eqb (sub_id x) (sub_id s)
                     then set_canceled (db_now env (ticks w)) x else x)
           (subscriptions w)
    /\ profiles w' =
       map (fun p => if String.eqb (profile_id p) (sub_user_id s)
                     then set_free (db_now env (1 + ticks w)) p else p)
           (profiles w)
    /\ payment_logs w' =
       (payment_logs w
        ++ [mkLog None (Some (sub_id s)) (Some "SUBSCRIPTION_CANCELED") None
                  None None (Some "CANCELED") (PayloadCancel reason true) 0
                  None None (db_now env (2 + ticks w))])%list
    /\ orders w' = orders w
    /\ subscription_tiers w' = subscription_tiers w
    /\ netopia_requests w' = netopia_requests w
    /\ ticks w' = (3 + ticks w)%nat.
Proof.
  intros Hpk Hin.
  unfold cancel_subscription, log_payment_event, bind. cbn.
  rewrite filter_after_update by reflexivity.
  rewrite (filter_primary_key s _ Hpk Hin). cbn.
  eexists. split; [reflexivity |]. cbn. repeat split; reflexivity.
Qed.

Lemma update_keeps_ids (id : string) (f : Subscription -> Subscription)
      (l : list Subscription) :
  (forall s, sub_id (f s) = sub_id s) ->
  map sub_id (map (fun s => if String.eqb (sub_id s) id then f s else s) l)
  = map sub_id l.
Proof.
  intros Hf. rewrite map_map. apply map_ext. intros s.
  destruct (String.eqb (sub_id s) id); [apply Hf | reflexivity].
Qed.

(** X4. Cancelling a subscription that is already cancelled is not a
    no-op in the store: the status stays CANCELED, but
    [cancel_effective_at] moves to the time of the second call and a second
    CANCELED event is appended.  [id] is the primary key. *)
Theorem cancel_subscription_twice (env : Env) (s : Subscription)
        (reason1 reason2 : string) (w : World) :
  NoDup (map sub_id (subscriptions w)) ->
  In s (subscriptions w) ->
  let id := sub_id s in
  let run := (cancel_subscription env id reason1 ;;
              cancel_subscription env id reason2) w in
  fst run = Ok tt
  /\ status_of id (snd run) = ["CANCELED"]
  /\ map sub_cancel_effective_at
         (filter (fun x => String.eqb (sub_id x) id) (subscriptions (snd run)))
     = [Some (db_now env (3 + ticks w))]
  /\ exists ev1 ev2,
      payment_logs (snd run) = (payment_logs w ++ [ev1; ev2])%list
      /\ pl_raw_payload ev1 = PayloadCancel reason1 true
      /\ pl_raw_payload ev2 = PayloadCancel reason2 true
      /\ pl_status ev1 = Some "CANCELED"
      /\ pl_status ev2 = Some "CANCELED".
Proof.
  intros Hpk Hin. cbn zeta.
  destruct (cancel_subscription_steps env s reason1 w Hpk Hin)
    as (w1 & Hrun1 & Hsubs1 & _ & Hlogs1 & _ & _ & _ & Hticks1).
  set (s1 := set_canceled (db_now env (ticks w)) s).
  assert (Hin1 : In s1 (subscriptions w1)).
  { rewrite Hsubs1. apply in_map_iff. exists s. split; [| exact Hin].
    now rewrite String.eqb_refl. }
  assert (Hpk1 : NoDup (map sub_id (subscriptions w1))).
  { rewrite Hsubs1, update_keeps_ids by reflexivity. exact Hpk. }
  destruct (cancel_subscription_steps env s1 reason2 w1 Hpk1 Hin1)
    as (w2 & Hrun2 & Hsubs2 & _ & Hlogs2 & _).
  change (sub_id s1) with (sub_id s) in *.
  rewrite (bind_ok _ _ _ _ _ Hrun1), Hrun2. cbn [fst snd].
  split; [reflexivity |].
  assert (Hsel : filter (fun x => String.eqb (sub_id x) (sub_id s)) (subscriptions w2)
                 = [set_canceled (db_now env (ticks w1)) s1]).
  { rewrite Hsubs2, filter_after_update by reflexivity.
    change (sub_id s) with (sub_id s1).
    rewrite (filter_primary_key s1 _ Hpk1 Hin1). reflexivity. }
  split; [unfold status_of; rewrite Hsel; reflexivity |].
  split; [rewrite Hsel, Hticks1; reflexivity |].
  eexists. eexists. split.
  - rewrite Hlogs2, Hlogs1, <- app_assoc. reflexivity.
  - cbn. repeat split.
Qed.

(** X5. [update_order_status] takes a [netopia_order_id] that is [None],
    JSON null or a string, and then assigns [status], [netopia_order_id]
    and [updated_at] of the orders carrying the id and nothing else: every
    other column and table is as before, an id that no order carries
    changes no row, and a call without a gateway id stores NULL over the one
    an order had.  Any other value is refused by the driver: the call
    raises and the store is as before. *)
Theorem update_order_status_frame (env : Env) (oid status : string)
        (netopia_order_id : option Json) (w : World) :
  let run := update_order_status env oid status netopia_order_id w in
  match text_id netopia_order_id with
  | Some stored =>
      fst run = Ok tt
      /\ map order_untouched_columns (orders (snd run))
         = map order_untouched_columns (orders w)
      /\ (forall o, In o (orders (snd run)) -> order_id o = oid ->
                    order_status o = status
                    /\ order_netopia_order_id o = stored
                    /\ order_updated_at o = Some (db_now env (ticks w)))
      /\ (forall o, In o (orders w) -> order_id o <> oid -> In o (orders (snd run)))
      /\ ((forall o, In o (orders w) -> order_id o <> oid) ->
          orders (snd run) = orders w)
      /\ subscriptions (snd run) = subscriptions w
      /\ payment_logs (snd run) = payment_logs w
      /\ profiles (snd run) = profiles w
  | None =>
      (exists v, netopia_order_id = Some v
                 /\ fst run = Raise (driver_error env 3 v))
      /\ snd run = w
  end.
Proof.
  cbn zeta. unfold update_order_status, text_param.
  destruct (text_id netopia_order_id) as [stored |] eqn:E; cbn.
  - split; [reflexivity |]. split.
    { rewrite map_map. apply map_ext. intros o.
      destruct (String.eqb (order_id o) oid); reflexivity. }
    split.
    { intros o Ho Hid. apply in_map_update in Ho as (o' & _ & ->).
      destruct (String.eqb_spec (order_id o') oid) as [_ | Hne].
      - cbn. auto.
      - contradiction. }
    split.
    { intros o Ho Hne. apply in_map_iff. exists o. split; [| exact Ho].
      destruct (String.eqb_spec (order_id o) oid); [contradiction | reflexivity]. }
    split; [| auto].
    intros Habsent. apply map_update_absent. intros o Ho.
    apply String.eqb_neq, Habsent, Ho.
  - split; [| reflexivity].
    destruct netopia_order_id as [v |]; [| discriminate E]. eauto.
Qed.

(** * Further properties of a renewal *)

Lemma renewal_orders (env : Env) (r : SubscriptionRow) (w : World) :
  let w' := snd (_process_subscription_renewal env r w) in
  let k := ticks w in
  match accepted (gateway_reply env r k) with
  | Some body =>
      match text_id (json_get "netopia_order_id" body) with
      | Some nid =>
          orders w' =
          map (fun o => if String.eqb (order_id o) (db_new_id env k)
                        then set_order_status (db_now env (4 + k)) "PROCESSING"
                                              nid o
                        else o)
              (orders w ++ [renewal_order env r k])
      | None => orders w' = (orders w ++ [renewal_order env r k])%list
      end
  | None => orders w' = (orders w ++ [renewal_order env r k])%list
  end.
Proof.
  cbn zeta. unfold accepted, gateway_reply, renewal_request, renewal_order.
  run_renewal.
  destruct (netopia_post env _ _) as [e | st e | st b]; cbn;
    [reflexivity | reflexivity |].
  destruct b as [| | | | | b]; destruct (st =? 200); cbn; try reflexivity.
  destruct (text_id (json_get "netopia_order_id" b)) as [nid |]; cbn;
    [| reflexivity].
  destruct (String.eqb (row_interval r) "MONTHLY");
    [| destruct (String.eqb (row_interval r) "YEARLY")]; cbn;
    destruct (text_id (json_get "netopia_order_id" b)); reflexivity.
Qed.

(** X6. A renewal the gateway does not accept raises the gateway's failure
    and leaves behind the order it created, still PENDING; the subscription
    is untouched, so the renewal queue of the resulting state selects the
    same row again.  The database clock does not run backwards. *)
Theorem refused_renewal_leaves_pending_order (env : Env) (r : SubscriptionRow)
        (w : World) :
  (forall i j, (i <= j)%nat -> db_now env i <= db_now env j) ->
  In r (subscriptions_with_tier w) ->
  due_where (db_now env (ticks w)) r = true ->
  accepted (gateway_reply env r (ticks w)) = None ->
  let run := _process_subscription_renewal env r w in
  fst run = Raise (gateway_exception env (gateway_reply env r (ticks w)))
  /\ orders (snd run) = (orders w ++ [renewal_order env r (ticks w)])%list
  /\ order_status (renewal_order env r (ticks w)) = "PENDING"
  /\ subscriptions (snd run) = subscriptions w
  /\ In r (rows_of (get_due_subscriptions env) (snd run)).
Proof.
  intros Hmono Hrow Hdue Href. cbn zeta.
  pose proof (renewal_orders env r w) as Hord. cbn zeta in Hord.
  rewrite Href in Hord.
  destruct (renewal_when_refused env r w Href)
    as (w1 & Hrun & Hsubs & _ & _ & Htiers & _ & Hticks).
  rewrite Hrun in *. cbn [fst snd] in *.
  repeat (split; [first [reflexivity | assumption] |]).
  unfold rows_of, get_due_subscriptions. cbn [fst].
  apply in_order_by, filter_In. split.
  - unfold subscriptions_with_tier in *. rewrite Hsubs, Htiers. exact Hrow.
  - apply due_where_spec in Hdue as (Hst & Har & (t & Et & Ht) & Htok).
    apply due_where_spec. repeat split; try assumption.
    exists t. split; [exact Et |].
    etransitivity; [exact Ht |]. apply Hmono. lia.
Qed.

(** X7. When the gateway accepts with a [netopia_order_id] that is absent,
    null or a string, and the id the database gives the new order is not
    already in [orders], a renewal adds exactly one order, in status
    PROCESSING and holding the gateway's id, NULL when it is absent or
    null; the orders that were there are unchanged. *)
Theorem accepted_renewal_order_processing (env : Env) (r : SubscriptionRow)
        (w : World) (body : JsonObject) (nid : option string) :
  (forall o, In o (orders w) -> order_id o <> db_new_id env (ticks w)) ->
  accepted (gateway_reply env r (ticks w)) = Some body ->
  text_id (json_get "netopia_order_id" body) = Some nid ->
  let run := _process_subscription_renewal env r w in
  exists o,
    orders (snd run) = (orders w ++ [o])%list
    /\ order_status o = "PROCESSING"
    /\ order_netopia_order_id o = nid
    /\ order_untouched_columns o
       = order_untouched_columns (renewal_order env r (ticks w))
    /\ order_subscription_id o = Some (sub_id (row_sub r))
    /\ order_amount o = row_price r.
Proof.
  intros Hfresh Hacc Hnid. cbn zeta.
  pose proof (renewal_orders env r w) as Hord. cbn zeta in Hord.
  rewrite Hacc, Hnid in Hord. rewrite Hord, map_app.
  rewrite map_update_absent
    by (intros o Ho; apply String.eqb_neq, Hfresh, Ho).
  cbn [map renewal_order order_id]. rewrite String.eqb_refl.
  eexists. split; [reflexivity |]. cbn. repeat split.
Qed.

(** X8. After a renewal the gateway accepted with a [netopia_order_id]
    that is absent, null or a string, the subscription is out of the
    renewal queue for as long as the database clock is before the new
    period end: in any state holding the resulting subscriptions the queue
    has no row for it. *)
Theorem renewed_subscription_leaves_queue (env : Env) (r : SubscriptionRow)
        (w : World) (body : JsonObject) (nid : option string) :
  accepted (gateway_reply env r (ticks w)) = Some body ->
  text_id (json_get "netopia_order_id" body) = Some nid ->
  let w' := snd (_process_subscription_renewal env r w) in
  let new_end := py_now env (5 + ticks w)
                 + days (interval_length (row_interval r)) in
  forall v,
    subscriptions v = subscriptions w' ->
    db_now env (ticks v) < new_end ->
    forall r', In r' (rows_of (get_due_subscriptions env) v) ->
               sub_id (row_sub r') <> sub_id (row_sub r).
Proof.
  intros Hacc Hnid. cbn zeta.
  destruct (renewal_when_accepted env r w body nid Hacc Hnid)
    as (w1 & Hrun & Hsubs & _).
  rewrite Hrun. cbn [snd].
  intros v Hv Hnow r' Hr' Hid.
  unfold rows_of, get_due_subscriptions in Hr'. cbn [fst] in Hr'.
  apply in_order_by, filter_In in Hr' as [Hr' Hdue].
  apply in_subscriptions_with_tier in Hr' as (s' & st & Hs' & _ & _ & ->).
  cbn [row_sub] in *.
  rewrite Hv, Hsubs in Hs'. apply in_map_update in Hs' as (s & _ & ->).
  apply due_where_spec in Hdue as (_ & _ & (t & Et & Ht) & _).
  cbn [row_sub] in Et.
  destruct (String.eqb_spec (sub_id s) (sub_id (row_sub r))) as [_ | Hne].
  - cbn [set_period sub_current_period_end] in Et. injection Et as <-.
    simpl Nat.add in *. lia.
  - contradiction.
Qed.

(** X19. A charge the gateway accepts with a [netopia_order_id] that is
    neither null nor a string is not recorded: [update_order_status] is
    refused by the driver, the renewal raises that error after the request
    was sent, the order stays PENDING, the period is not written and no
    event is appended. *)
Theorem accepted_charge_with_refused_id (env : Env) (r : SubscriptionRow)
        (w : World) (body : JsonObject) :
  accepted (gateway_reply env r (ticks w)) = Some body ->
  text_id (json_get "netopia_order_id" body) = None ->
  let run := _process_subscription_renewal env r w in
  fst run = Raise (refused_id env body)
  /\ netopia_requests (snd run)
     = (netopia_requests w ++ [renewal_request env r (ticks w)])%list
  /\ orders (snd run) = (orders w ++ [renewal_order env r (ticks w)])%list
  /\ order_status (renewal_order env r (ticks w)) = "PENDING"
  /\ subscriptions (snd run) = subscriptions w
  /\ payment_logs (snd run) = payment_logs w.
Proof.
  intros Hacc Hnid. cbn zeta.
  pose proof (renewal_orders env r w) as Hord. cbn zeta in Hord.
  rewrite Hacc, Hnid in Hord.
  destruct (renewal_when_id_refused env r w body Hacc Hnid)
    as (w1 & Hrun & Hsubs & Hlogs & _ & _ & Hreq & _).
  rewrite Hrun in *. cbn [fst snd] in *.
  repeat (split; [first [reflexivity | assumption] |]). exact Hlogs.
Qed.

(** * Further properties of trial expiry *)

(** X9. A trial with a stored token whose charge the gateway does not
    accept is cancelled in the same call, which returns normally: the
    status becomes CANCELED, the profile of the user goes to the free tier,
    the CANCELED event carries "Trial expired - charge failed: " followed
    by the text of the failure, one request was sent, and the order created
    for the attempt stays PENDING.  [id] is the primary key. *)
Theorem trial_charge_failed_is_canceled (env : Env) (r : SubscriptionRow)
        (w : World) :
  NoDup (map sub_id (subscriptions w)) ->
  In (row_sub r) (subscriptions w) ->
  no_token r = false ->
  accepted (gateway_reply env r (ticks w)) = None ->
  let run := _process_trial_expiration env r w in
  let failure := gateway_exception env (gateway_reply env r (ticks w)) in
  fst run = Ok tt
  /\ status_of (sub_id (row_sub r)) (snd run) = ["CANCELED"]
  /\ (forall p, In p (profiles (snd run)) ->
                profile_id p = sub_user_id (row_sub r) ->
                profile_subscription_tier p = "free")
  /\ (exists ev,
         payment_logs (snd run) = (payment_logs w ++ [ev])%list
         /\ pl_status ev = Some "CANCELED"
         /\ pl_subscription_id ev = Some (sub_id (row_sub r))
         /\ pl_raw_payload ev
            = PayloadCancel ("Trial expired - charge failed: " ++ exc_str failure)
                            true)
  /\ netopia_requests (snd run)
     = (netopia_requests w ++ [renewal_request env r (ticks w)])%list
  /\ orders (snd run) = (orders w ++ [renewal_order env r (ticks w)])%list.
Proof.
  intros Hpk Hin Htok Href. cbn zeta.
  rewrite trial_expiration_unfold. cbn zeta. rewrite Htok.
  set (w0 := set_logger _ w).
  change (ticks w) with (ticks w0) in *.
  pose proof (renewal_orders env r w0) as Hord. cbn zeta in Hord.
  rewrite Href in Hord.
  destruct (renewal_when_refused env r w0 Href)
    as (w1 & Hrun & Hsubs & Hlogs & Hprof & _ & Hreq & _).
  rewrite Hrun in Hord. cbn [snd] in Hord.
  rewrite (try_except_raise _ _ _ _ _ (bind_raise _ _ _ _ _ Hrun)).
  assert (Hpk1 : NoDup (map sub_id (subscriptions w1))) by now rewrite Hsubs.
  assert (Hin1 : In (row_sub r) (subscriptions w1)) by now rewrite Hsubs.
  destruct (cancel_subscription_steps env (row_sub r)
              ("Trial expired - charge failed: "
               ++ exc_str (gateway_exception env (gateway_reply env r (ticks w0))))
              w1 Hpk1 Hin1)
    as (w2 & Hrun2 & Hsubs2 & Hprof2 & Hlogs2 & Hord2 & _ & Hreq2 & _).
  rewrite (bind_ok _ _ _ _ _ Hrun2). cbn [logger_info fst snd].
  split; [reflexivity |]. split.
  { unfold status_of. cbn [subscriptions set_logger].
    rewrite Hsubs2, filter_after_update by reflexivity.
    rewrite (filter_primary_key _ _ Hpk1 Hin1). reflexivity. }
  cbn [profiles payment_logs netopia_requests orders set_logger].
  split.
  { intros p Hp Hid. rewrite Hprof2 in Hp.
    apply in_map_update in Hp as (q & _ & ->).
    destruct (String.eqb_spec (profile_id q) (sub_user_id (row_sub r)));
      [reflexivity | contradiction]. }
  split.
  { eexists. split; [rewrite Hlogs2, Hlogs; reflexivity |].
    cbn. repeat split. }
  split; [rewrite Hreq2, Hreq; reflexivity |].
  rewrite Hord2, Hord. reflexivity.
Qed.

Lemma trial_accepted_run (env : Env) (r : SubscriptionRow) (w : World)
      (body : JsonObject) (nid : option string) :
  no_token r = false ->
  accepted (gateway_reply env r (ticks w)) = Some body ->
  text_id (json_get "netopia_order_id" body) = Some nid ->
  exists w',
    _process_trial_expiration env r w = (Ok tt, w')
    /\ payment_logs w' =
       (payment_logs w
        ++ [mkLog (Some (db_new_id env (ticks w))) (Some (sub_id (row_sub r)))
                  (Some "AUTO_RENEWAL_ATTEMPTED")
                  nid (Some (row_price r))
                  (Some (row_currency r)) (Some "SUCCESS")
                  (PayloadResponse (JObj body)) 0 None None
                  (db_now env (7 + ticks w))])%list
    /\ netopia_requests w' =
       (netopia_requests w ++ [renewal_request env r (ticks w)])%list
    /\ ticks w' = (8 + ticks w)%nat.
Proof.
  intros Htok Hacc Hnid. rewrite trial_expiration_unfold. cbn zeta. rewrite Htok.
  set (w0 := set_logger _ w).
  destruct (renewal_when_accepted env r w0 body nid Hacc Hnid)
    as (w1 & Hrun & _ & Hlogs & _ & _ & Hreq & Hticks).
  rewrite (try_except_ok _ _ _ _ _ (bind_ok _ _ _ _ _ Hrun)).
  cbn [logger_info]. eexists. split; [reflexivity |].
  cbn [payment_logs netopia_requests ticks set_logger].
  rewrite Hlogs, Hreq, Hticks. repeat split; reflexivity.
Qed.

(** X10. Trial expiry never marks a charged subscription as paid, so
    processing the same trial again charges it again: two runs of
    [_process_trial_expiration] for one subscription, both accepted by the
    gateway with a [netopia_order_id] that is absent, null or a string,
    send two requests and append two SUCCESS events for it. *)
Theorem trial_charged_on_every_run (env : Env) (r r2 : SubscriptionRow)
        (w : World) (body body2 : JsonObject) (nid nid2 : option string) :
  no_token r = false ->
  accepted (gateway_reply env r (ticks w)) = Some body ->
  text_id (json_get "netopia_order_id" body) = Some nid ->
  sub_id (row_sub r2) = sub_id (row_sub r) ->
  no_token r2 = false ->
  accepted (gateway_reply env r2 (8 + ticks w)) = Some body2 ->
  text_id (json_get "netopia_order_id" body2) = Some nid2 ->
  let run := (_process_trial_expiration env r ;;
              _process_trial_expiration env r2) w in
  fst run = Ok tt
  /\ (exists q1 q2,
         netopia_requests (snd run) = (netopia_requests w ++ [q1; q2])%list
         /\ charged_subscription q1 = sub_id (row_sub r)
         /\ charged_subscription q2 = sub_id (row_sub r))
  /\ (exists ev1 ev2,
         payment_logs (snd run) = (payment_logs w ++ [ev1; ev2])%list
         /\ pl_status ev1 = Some "SUCCESS"
         /\ pl_status ev2 = Some "SUCCESS"
         /\ pl_subscription_id ev1 = Some (sub_id (row_sub r))
         /\ pl_subscription_id ev2 = Some (sub_id (row_sub r))
         /\ pl_netopia_order_id ev1 = nid
         /\ pl_netopia_order_id ev2 = nid2
         /\ pl_raw_payload ev1 = PayloadResponse (JObj body)
         /\ pl_raw_payload ev2 = PayloadResponse (JObj body2)).
Proof.
  intros Htok Hacc Hnid Hid Htok2 Hacc2 Hnid2. cbn zeta.
  destruct (trial_accepted_run env r w body nid Htok Hacc Hnid)
    as (w1 & Hrun1 & Hlogs1 & Hreq1 & Hticks1).
  rewrite <- Hticks1 in Hacc2.
  destruct (trial_accepted_run env r2 w1 body2 nid2 Htok2 Hacc2 Hnid2)
    as (w2 & Hrun2 & Hlogs2 & Hreq2 & _).
  rewrite (bind_ok _ _ _ _ _ Hrun1), Hrun2. cbn [fst snd].
  split; [reflexivity |]. split.
  - eexists. eexists. split.
    + rewrite Hreq2, Hreq1, <- app_assoc. reflexivity.
    + cbn. rewrite Hid. split; reflexivity.
  - eexists. eexists. split.
    + rewrite Hlogs2, Hlogs1, <- app_assoc. reflexivity.
    + cbn. rewrite Hid. repeat split.
Qed.

(** * Further properties of the jobs *)

Lemma process_recurring_billing_unfold (env : Env) (w : World) :
  let v := snd (logger_info "Processing recurring billing..." w) in
  let rows := rows_of (get_due_subscriptions env) w in
  let v0 := snd (logger_info ("Found " ++ str_nat (List.length rows)
                              ++ " subscriptions due for renewal") (tick v)) in
  process_recurring_billing env w
  = try_except (for_each rows (billing_step env))
               (fun e => logger_error ("Error in recurring billing process: "
                                       ++ exc_str e))
               v0.
Proof. reflexivity. Qed.

Lemma billing_step_accepted (env : Env) (r : SubscriptionRow) (v : World) :
  charge_recorded (gateway_reply env r (ticks v)) = true ->
  exists v' q ev,
    billing_step env r v = (Ok tt, v')
    /\ netopia_requests v' = (netopia_requests v ++ [q])%list
    /\ charged_subscription q = sub_id (row_sub r)
    /\ payment_logs v' = (payment_logs v ++ [ev])%list
    /\ pl_status ev = Some "SUCCESS"
    /\ pl_subscription_id ev = Some (sub_id (row_sub r)).
Proof.
  intros Hacc. unfold charge_recorded in Hacc.
  destruct (accepted (gateway_reply env r (ticks v))) as [body |] eqn:E;
    [| discriminate].
  destruct (text_id (json_get "netopia_order_id" body)) as [nid |] eqn:Hnid;
    [| discriminate].
  destruct (renewal_when_accepted env r v body nid E Hnid)
    as (v' & Hrun & _ & Hlogs & _ & _ & Hreq & _).
  exists v'. eexists. eexists.
  split; [apply try_except_ok, Hrun |].
  split; [exact Hreq |]. split; [reflexivity |].
  split; [exact Hlogs |]. split; reflexivity.
Qed.

Lemma billing_step_refused (env : Env) (r : SubscriptionRow) (v : World) :
  accepted (gateway_reply env r (ticks v)) = None ->
  json_serializable (PayloadSubscription r) = false ->
  exists v' e q,
    billing_step env r v = (Raise e, v')
    /\ exc_class e = "TypeError"
    /\ netopia_requests v' = (netopia_requests v ++ [q])%list
    /\ charged_subscription q = sub_id (row_sub r)
    /\ payment_logs v' = payment_logs v
    /\ subscriptions v' = subscriptions v.
Proof.
  intros Href Hser.
  destruct (renewal_when_refused env r v Href)
    as (v1 & Hrun & Hsubs & Hlogs & _ & _ & Hreq & _).
  unfold billing_step. rewrite (try_except_raise _ _ _ _ _ Hrun).
  unfold bind, logger_error, log_payment_event, json_dumps.
  cbn [ev_raw_payload]. rewrite Hser. cbn.
  eexists. eexists. eexists. split; [reflexivity |].
  cbn. rewrite Hreq, Hlogs, Hsubs. repeat split; reflexivity.
Qed.

Lemma billing_accepted_prefix (env : Env) (pre rest : list SubscriptionRow) :
  (forall r k, In r pre -> charge_recorded (gateway_reply env r k) = true) ->
  forall v,
  exists v' reqs evs,
    for_each (pre ++ rest) (billing_step env) v
    = for_each rest (billing_step env) v'
    /\ netopia_requests v' = (netopia_requests v ++ reqs)%list
    /\ map charged_subscription reqs = map (fun r => sub_id (row_sub r)) pre
    /\ payment_logs v' = (payment_logs v ++ evs)%list
    /\ map pl_status evs = map (fun _ => Some "SUCCESS") pre
    /\ map pl_subscription_id evs
       = map (fun r => Some (sub_id (row_sub r))) pre.
Proof.
  induction pre as [| r pre IH]; intros Hacc v.
  - exists v, [], []. rewrite !app_nil_r. repeat split; reflexivity.
  - destruct (billing_step_accepted env r v (Hacc r (ticks v) (or_introl eq_refl)))
      as (v1 & q & ev & Hstep & Hreq & Hq & Hlogs & Hst & Hsid).
    destruct (IH (fun r' k H => Hacc r' k (or_intror H)) v1)
      as (v' & reqs & evs & Hrun & Hreqs & Hcharged & Hevs & Hstatus & Hsids).
    exists v', (q :: reqs), (ev :: evs).
    split.
    { cbn [app for_each]. rewrite (bind_ok _ _ _ _ _ Hstep). exact Hrun. }
    split; [rewrite Hreqs, Hreq, <- app_assoc; reflexivity |].
    split; [cbn [map]; now rewrite Hq, Hcharged |].
    split; [rewrite Hevs, Hlogs, <- app_assoc; reflexivity |].
    split; cbn [map]; [now rewrite Hst, Hstatus | now rewrite Hsid, Hsids].
Qed.

(** X11. When the gateway accepts the charge of every due subscription,
    each with a [netopia_order_id] that is absent, null or a string, the
    billing job sends one request and appends one SUCCESS event per row of
    the renewal queue, in queue order, and nothing else to the payment
    log. *)
Theorem billing_renews_whole_queue (env : Env) (w : World) :
  (forall r k, In r (rows_of (get_due_subscriptions env) w) ->
               charge_recorded (gateway_reply env r k) = true) ->
  let rows := rows_of (get_due_subscriptions env) w in
  let run := process_recurring_billing env w in
  fst run = Ok tt
  /\ exists reqs evs,
      netopia_requests (snd run) = (netopia_requests w ++ reqs)%list
      /\ map charged_subscription reqs = map (fun r => sub_id (row_sub r)) rows
      /\ payment_logs (snd run) = (payment_logs w ++ evs)%list
      /\ map pl_status evs = map (fun _ => Some "SUCCESS") rows
      /\ map pl_subscription_id evs
         = map (fun r => Some (sub_id (row_sub r))) rows.
Proof.
  intros Hacc. cbn zeta. rewrite process_recurring_billing_unfold. cbn zeta.
  set (rows := rows_of (get_due_subscriptions env) w) in *.
  set (v0 := snd (logger_info _ _)).
  destruct (billing_accepted_prefix env rows [] Hacc v0)
    as (v' & reqs & evs & Hrun & Hreqs & Hcharged & Hevs & Hstatus & Hsids).
  rewrite app_nil_r in Hrun.
  rewrite (try_except_ok _ _ _ _ _ Hrun). cbn [fst snd].
  split; [reflexivity |]. exists reqs, evs.
  rewrite Hreqs, Hevs. repeat split; assumption.
Qed.

(** X12. The billing job stops at the first due subscription whose charge
    the gateway does not accept: it has renewed the rows before it, whose
    charges were accepted with a [netopia_order_id] that is absent, null or
    a string, it sends the request for that row and stores no event for it,
    and the rows after it in the queue are not attempted in this run; the
    job itself still returns normally. *)
Theorem billing_stops_at_first_refusal (env : Env) (w : World)
        (pre rest : list SubscriptionRow) (r : SubscriptionRow) :
  rows_of (get_due_subscriptions env) w = (pre ++ r :: rest)%list ->
  (forall r' k, In r' pre -> charge_recorded (gateway_reply env r' k) = true) ->
  (forall k, accepted (gateway_reply env r k) = None) ->
  let run := process_recurring_billing env w in
  fst run = Ok tt
  /\ exists reqs evs,
      netopia_requests (snd run) = (netopia_requests w ++ reqs)%list
      /\ map charged_subscription reqs
         = map (fun x => sub_id (row_sub x)) (pre ++ [r])
      /\ payment_logs (snd run) = (payment_logs w ++ evs)%list
      /\ map pl_status evs = map (fun _ => Some "SUCCESS") pre
      /\ map pl_subscription_id evs
         = map (fun x => Some (sub_id (row_sub x))) pre.
Proof.
  intros Hrows Hacc Href. cbn zeta.
  assert (Hser : json_serializable (PayloadSubscription r) = false).
  { assert (Hr : In r (rows_of (get_due_subscriptions env) w))
      by (rewrite Hrows; apply in_elt).
    unfold rows_of, get_due_subscriptions in Hr. cbn [fst] in Hr.
    apply in_order_by, filter_In in Hr as [_ Hdue].
    exact (due_row_not_serializable _ _ Hdue). }
  rewrite process_recurring_billing_unfold. cbn zeta. rewrite Hrows.
  set (v0 := snd (logger_info _ _)).
  destruct (billing_accepted_prefix env pre (r :: rest) Hacc v0)
    as (v1 & reqs & evs & Hrun & Hreqs & Hcharged & Hevs & Hstatus & Hsids).
  destruct (billing_step_refused env r v1 (Href (ticks v1)) Hser)
    as (v2 & e & q & Hstep & _ & Hreq & Hq & Hlogs & _).
  assert (Hloop : for_each (pre ++ r :: rest) (billing_step env) v0 = (Raise e, v2)).
  { rewrite Hrun. cbn [for_each]. apply bind_raise, Hstep. }
  rewrite (try_except_raise _ _ _ _ _ Hloop). cbn [logger_error fst snd].
  split; [reflexivity |]. exists (reqs ++ [q])%list, evs.
  cbn [netopia_requests payment_logs set_logger].
  rewrite Hreq, Hlogs, Hreqs, Hevs, <- app_assoc.
  repeat split; try assumption.
  rewrite !map_app. cbn [map]. now rewrite Hcharged, Hq.
Qed.

Lemma cancel_subscription_requests (env : Env) (id reason : string)
      (w : World) :
  netopia_requests (snd (cancel_subscription env id reason w))
  = netopia_requests w.
Proof.
  unfold cancel_subscription, log_payment_event, bind. cbn.
  destruct (filter _ _) as [| s [| s' l]]; reflexivity.
Qed.

Lemma requests_after_handler {A} (m : M A) (h : PyExc -> M A) (w : World) :
  (forall e v, netopia_requests (snd (h e v)) = netopia_requests v) ->
  netopia_requests (snd (try_except m h w)) = netopia_requests (snd (m w)).
Proof.
  intros Hh. unfold try_except. destruct (m w) as [[a | e] v]; cbn [snd];
    [reflexivity | apply Hh].
Qed.

Lemma trial_expiration_requests (env : Env) (r : SubscriptionRow) (v : World) :
  netopia_requests (snd (_process_trial_expiration env r v))
  = (netopia_requests v
     ++ if no_token r then [] else [renewal_request env r (ticks v)])%list.
Proof.
  rewrite trial_expiration_unfold. cbn zeta.
  set (v0 := set_logger _ v).
  destruct (no_token r).
  - rewrite (proj1 (proj2 (proj2 (proj2 (snd_then_log _ _ v0))))).
    rewrite cancel_subscription_requests, app_nil_r. reflexivity.
  - destruct (accepted (gateway_reply env r (ticks v0))) as [body |] eqn:E;
      [destruct (text_id (json_get "netopia_order_id" body)) as [nid |] eqn:Hnid |].
    + destruct (renewal_when_accepted env r v0 body nid E Hnid)
        as (v1 & Hrun & _ & _ & _ & _ & Hreq & _).
      rewrite (try_except_ok _ _ _ _ _ (bind_ok _ _ _ _ _ Hrun)).
      cbn [logger_info snd netopia_requests set_logger]. exact Hreq.
    + destruct (renewal_when_id_refused env r v0 body E Hnid)
        as (v1 & Hrun & _ & _ & _ & _ & Hreq & _).
      rewrite (try_except_raise _ _ _ _ _ (bind_raise _ _ _ _ _ Hrun)).
      rewrite (proj1 (proj2 (proj2 (proj2 (snd_then_log _ _ v1))))).
      rewrite cancel_subscription_requests. exact Hreq.
    + destruct (renewal_when_refused env r v0 E)
        as (v1 & Hrun & _ & _ & _ & _ & Hreq & _).
      rewrite (try_except_raise _ _ _ _ _ (bind_raise _ _ _ _ _ Hrun)).
      rewrite (proj1 (proj2 (proj2 (proj2 (snd_then_log _ _ v1))))).
      rewrite cancel_subscription_requests. exact Hreq.
Qed.

Lemma trial_step_requests (env : Env) (r : SubscriptionRow) (v : World) :
  netopia_requests (snd (trial_step env r v))
  = (netopia_requests v
     ++ if no_token r then [] else [renewal_request env r (ticks v)])%list.
Proof.
  unfold trial_step. rewrite requests_after_handler by reflexivity.
  apply trial_expiration_requests.
Qed.

Lemma trial_fold_requests (env : Env) (rows : list SubscriptionRow) :
  forall v,
  exists reqs,
    netopia_requests (fold_left (fun u r => snd (trial_step env r u)) rows v)
    = (netopia_requests v ++ reqs)%list
    /\ map charged_subscription reqs
       = map (fun r => sub_id (row_sub r))
             (filter (fun r => negb (no_token r)) rows).
Proof.
  induction rows as [| r rows IH]; intros v; cbn [fold_left filter].
  - exists []. now rewrite app_nil_r.
  - destruct (IH (snd (trial_step env r v))) as (reqs & Hreqs & Hcharged).
    rewrite Hreqs, trial_step_requests, <- app_assoc.
    destruct (no_token r); cbn [negb app].
    + exists reqs. auto.
    + eexists. split; [reflexivity |]. cbn [map]. now rewrite Hcharged.
Qed.

(** X13. The trial job sends exactly one charge request for each row of the
    trial queue that holds a token, in queue order, and none for a row
    without a token, whatever the gateway answers. *)
Theorem trial_job_requests (env : Env) (w : World) :
  let rows := rows_of (get_trial_subscriptions env) w in
  exists reqs,
    netopia_requests (snd (process_trial_periods env w))
    = (netopia_requests w ++ reqs)%list
    /\ map charged_subscription reqs
       = map (fun r => sub_id (row_sub r))
             (filter (fun r => negb (no_token r)) rows).
Proof.
  cbn zeta. rewrite process_trial_periods_run. cbn [snd].
  match goal with
  | |- context [fold_left _ ?rows ?v] =>
      destruct (trial_fold_requests env rows v) as (reqs & Hreqs & Hcharged)
  end.
  exists reqs. split; [rewrite Hreqs; reflexivity | exact Hcharged].
Qed.

Lemma retry_step_effect (env : Env) (p : FailedPayment) (v : World) :
  let v' := snd (retry_step env p v) in
  subscriptions v' = subscriptions v
  /\ orders v' = orders v
  /\ profiles v' = profiles v
  /\ netopia_requests v' = netopia_requests v
  /\ exists new,
      payment_logs v' = (payment_logs v ++ new)%list
      /\ (List.length new <= 1)%nat
      /\ forall ev, In ev new ->
                    pl_event_type ev = Some "PAYMENT_RETRY"
                    /\ pl_status ev = Some "RETRYING".
Proof.
  cbn zeta.
  unfold retry_step, _retry_payment, log_payment_event, json_dumps,
    logger_info, logger_error, try_except, bind, ret, raise.
  cbn [ev_raw_payload].
  destruct (json_serializable (PayloadOriginalPayment p)); cbn.
  - repeat split. eexists. split; [reflexivity |]. split; [cbn; lia |].
    intros ev [<- | []]. cbn. split; reflexivity.
  - repeat split. exists []. rewrite app_nil_r.
    split; [reflexivity |]. split; [cbn; lia |]. intros ev [].
Qed.

Lemma retry_fold_effect (env : Env) (rows : list FailedPayment) :
  forall v,
  let v' := fold_left (fun u p => snd (retry_step env p u)) rows v in
  subscriptions v' = subscriptions v
  /\ orders v' = orders v
  /\ profiles v' = profiles v
  /\ netopia_requests v' = netopia_requests v
  /\ exists new,
      payment_logs v' = (payment_logs v ++ new)%list
      /\ (List.length new <= List.length rows)%nat
      /\ forall ev, In ev new ->
                    pl_event_type ev = Some "PAYMENT_RETRY"
                    /\ pl_status ev = Some "RETRYING".
Proof.
  induction rows as [| p rows IH]; intros v; cbn [fold_left].
  - repeat split. exists []. rewrite app_nil_r.
    split; [reflexivity |]. split; [cbn; lia |]. intros ev [].
  - destruct (retry_step_effect env p v)
      as (Hs & Ho & Hp & Hr & new1 & Hl & Hlen & Hev).
    destruct (IH (snd (retry_step env p v)))
      as (Hs' & Ho' & Hp' & Hr' & new2 & Hl' & Hlen' & Hev').
    cbn zeta in *.
    rewrite Hs', Ho', Hp', Hr', Hl', Hs, Ho, Hp, Hr, Hl.
    repeat split. exists (new1 ++ new2)%list.
    split; [now rewrite app_assoc |].
    split; [rewrite length_app; cbn [List.length]; lia |].
    intros ev Hin. apply in_app_or in Hin as [Hin | Hin]; auto.
Qed.

(** X14. The retry job charges nobody and updates nothing: it leaves the
    subscriptions, the orders, the profiles and the stored payment events
    as they were and sends no request to the gateway; all it does is append
    at most one PAYMENT_RETRY / RETRYING event per row of the retry
    queue. *)
Theorem retry_job_frame (env : Env) (config : Config) (w : World) :
  let rows := rows_of (get_failed_payments env config) w in
  let w' := snd (process_payment_retries env config w) in
  subscriptions w' = subscriptions w
  /\ orders w' = orders w
  /\ profiles w' = profiles w
  /\ netopia_requests w' = netopia_requests w
  /\ exists new,
      payment_logs w' = (payment_logs w ++ new)%list
      /\ (List.length new <= List.length rows)%nat
      /\ forall ev, In ev new ->
                    pl_event_type ev = Some "PAYMENT_RETRY"
                    /\ pl_status ev = Some "RETRYING".
Proof.
  cbn zeta. rewrite process_payment_retries_run. cbn [snd].
  match goal with
  | |- context [fold_left _ ?rows ?v] =>
      destruct (retry_fold_effect env rows v)
        as (Hs & Ho & Hp & Hr & new & Hl & Hlen & Hev)
  end.
  cbn zeta in *. rewrite Hs, Ho, Hp, Hr, Hl.
  repeat (split; [reflexivity |]).
  exists new. split; [reflexivity |]. split; [exact Hlen | exact Hev].
Qed.

Lemma join_failed_ext (w w' : World) (pl : PaymentLog) :
  orders w' = orders w -> subscriptions w' = subscriptions w ->
  join_failed w' pl = join_failed w pl.
Proof. intros Ho Hs. unfold join_failed. now rewrite Ho, Hs. Qed.

(** X15. Retrying does not use up a retry: an event taken from the retry
    queue is in the retry queue again after the retry job, for as long as
    it is less than 24 hours old, because its stored retry count never
    changes. *)
Theorem retried_event_stays_eligible (env : Env) (config : Config)
        (w : World) (p : FailedPayment) :
  In p (rows_of (get_failed_payments env config) w) ->
  let w' := snd (process_payment_retries env config w) in
  db_now env (ticks w') - 24 * 3600 <= fp_created_at p ->
  In p (rows_of (get_failed_payments env config) w').
Proof.
  intros Hp. cbn zeta. intros Hage.
  set (w' := snd (process_payment_retries env config w)) in *.
  assert (Hframe : subscriptions w' = subscriptions w /\ orders w' = orders w
                   /\ exists new, payment_logs w' = (payment_logs w ++ new)%list).
  { unfold w'. rewrite process_payment_retries_run. cbn [snd].
    match goal with
    | |- context [fold_left _ ?rows ?v] =>
        destruct (retry_fold_effect env rows v)
          as (Hs & Ho & _ & _ & new & Hl & _)
    end.
    cbn zeta in *. rewrite Hs, Ho, Hl. repeat split. eauto. }
  destruct Hframe as (Hs & Ho & new & Hl).
  unfold rows_of, get_failed_payments in *. cbn [fst] in *.
  apply in_order_by, filter_In in Hp as [Hp Hsel].
  apply in_order_by, filter_In. split.
  - apply in_flat_map in Hp as (pl & Hpl & Hp).
    apply in_flat_map. exists pl. split.
    + rewrite Hl. apply in_or_app. left. exact Hpl.
    + now rewrite (join_failed_ext w w' pl Ho Hs).
  - unfold failed_where, hours in *.
    apply andb_prop in Hsel as [Hsel _]. rewrite Hsel. cbn [andb].
    apply Z.leb_le. lia.
Qed.

(** * The entry point *)

Lemma load_config_fields (p : Process) (c : Settings) :
  load_config p = Ok c ->
  netopia_api_key c = getenv p "NETOPIA_API_KEY" ""
  /\ netopia_secret_key c = getenv p "NETOPIA_SECRET_KEY" ""
  /\ db_password c = getenv p "DB_PASSWORD" "".
Proof.
  unfold load_config.
  destruct (py_int p (getenv p "DB_PORT" "5432")); [| discriminate].
  destruct (py_int p (getenv p "MAX_RETRY_ATTEMPTS" "3")); [| discriminate].
  destruct (py_int p (getenv p "RETRY_DELAY_SECONDS" "300")); [| discriminate].
  destruct (py_int p (getenv p "TRIAL_GRACE_PERIOD_HOURS" "24")); [| discriminate].
  intros [= <-]. cbn. auto.
Qed.

Lemma run_all_jobs_returns (env : Env) (config : Config) (w : World) :
  fst (run_all_jobs env config w) = Ok tt.
Proof.
  unfold run_all_jobs, bind at 1, logger_info at 1. cbn [fst snd].
  unfold try_except.
  rewrite bind_fst_ok by apply process_recurring_billing_returns.
  rewrite bind_fst_ok by (now rewrite process_trial_periods_run).
  rewrite bind_fst_ok by (now rewrite process_payment_retries_run).
  reflexivity.
Qed.

(** X16. When the gateway key, the gateway secret or the database password
    is unset or empty, an integer setting cannot be read, or the database
    pool cannot be created, [main] ends the process with status 1 before
    any job runs: no query, no write and no request is made, and one ERROR
    line is logged. *)
Theorem main_without_credentials (p : Process) (env : Env) (w : World) :
  (exists e, load_config p = Raise e)
  \/ (exists c e, load_config p = Ok c /\ create_pool p c = Raise e)
  \/ getenv p "NETOPIA_API_KEY" "" = ""
  \/ getenv p "NETOPIA_SECRET_KEY" "" = ""
  \/ getenv p "DB_PASSWORD" "" = "" ->
  let run := main p env w in
  fst run = Ok 1
  /\ subscriptions (snd run) = subscriptions w
  /\ orders (snd run) = orders w
  /\ payment_logs (snd run) = payment_logs w
  /\ profiles (snd run) = profiles w
  /\ netopia_requests (snd run) = netopia_requests w
  /\ ticks (snd run) = ticks w
  /\ exists msg, logger (snd run) = (logger w ++ [(ERROR, msg)])%list.
Proof.
  intros Hmissing. cbn zeta. unfold main.
  destruct (load_config p) as [c | e] eqn:E.
  - destruct (load_config_fields p c E) as (Hkey & Hsecret & Hpw).
    destruct (String.eqb_spec (netopia_api_key c) "") as [_ | Hk]; cbn [orb].
    { cbn. repeat split. eauto. }
    destruct (String.eqb_spec (netopia_secret_key c) "") as [_ | Hs].
    { cbn. repeat split. eauto. }
    destruct (String.eqb_spec (db_password c) "") as [_ | Hp].
    { cbn. repeat split. eauto. }
    destruct (create_pool p c) as [[] | e'] eqn:Epool.
    + exfalso. destruct Hmissing as [[e He] | [(c' & e & Hc' & He) | Hmissing]].
      * congruence.
      * injection Hc' as <-. congruence.
      * rewrite <- Hkey, <- Hsecret, <- Hpw in Hmissing. tauto.
    + cbn. repeat split. eauto.
  - cbn. repeat split. eauto.
Qed.

(** X17. With the credentials present, the settings readable and the
    database reachable, [main] runs [run_all_jobs] once and ends the
    process with status 0, whatever the jobs met: a refused charge, an
    aborted billing loop or a failed retry never shows in the exit
    status. *)
Theorem main_exits_zero_after_jobs (p : Process) (env : Env) (w : World)
        (c : Settings) :
  load_config p = Ok c ->
  netopia_api_key c <> "" ->
  netopia_secret_key c <> "" ->
  db_password c <> "" ->
  create_pool p c = Ok tt ->
  main p env w = (Ok 0, snd (run_all_jobs env (job_config c) w)).
Proof.
  intros Hc Hk Hs Hp Hpool. unfold main. rewrite Hc.
  apply String.eqb_neq in Hk, Hs, Hp. rewrite Hk, Hs, Hp, Hpool. cbn [orb].
  unfold try_except.
  rewrite bind_fst_ok by apply run_all_jobs_returns. reflexivity.
Qed.

(** * The further properties on the scenarios *)

Lemma clock_monotone (i j : nat) : (i <= j)%nat -> clock i <= clock j.
Proof. unfold clock. lia. Defined.

Lemma accept_accepts (r : SubscriptionRow) (k : nat) :
  charge_recorded (gateway_reply (env_of accept) r k) = true.
Proof. reflexivity. Defined.

(** X1 on the table of four subscriptions: the two trials are selected. *)
Lemma get_trial_subscriptions_exact_witness :
  let rows := rows_of (get_trial_subscriptions (env_of accept))
                      (world_of [S1; S2; S3; S4] [] []) in
  (forall id, In id (map (fun r => sub_id (row_sub r)) rows)
              <-> id = "sub_2" \/ id = "sub_3")
  /\ NoDup (map (fun r => sub_id (row_sub r)) rows).
Proof.
  cbn zeta.
  destruct (get_trial_subscriptions_exact (env_of accept)
              (world_of [S1; S2; S3; S4] [] []))
    as (_ & _ & Hnd).
  - cbn. repeat (constructor; [cbn; intuition discriminate |]). constructor.
  - cbn. repeat (constructor; [cbn; intuition discriminate |]). constructor.
  - intros s Hs. exists pro. split; [left; reflexivity |].
    cbn in Hs. destruct Hs as [<- | [<- | [<- | [<- | []]]]]; reflexivity.
  - split; [| exact Hnd].
    intros id. vm_compute. intuition congruence.
Defined.

(** X3 on an id that is not in the table. *)
Lemma cancel_unknown_subscription_witness :
  let run := cancel_subscription (env_of accept) "sub_9" "Trial expired" trial_world in
  fst run = Ok tt
  /\ subscriptions (snd run) = subscriptions trial_world
  /\ List.length (payment_logs (snd run)) = 1%nat.
Proof.
  cbn zeta.
  destruct (cancel_unknown_subscription (env_of accept) "sub_9" "Trial expired"
              trial_world)
    as (H1 & H2 & _ & _ & ev & Hlogs & _).
  - intros s Hs. cbn in Hs.
    destruct Hs as [<- | [<- | [<- | []]]]; discriminate.
  - split; [exact H1 |]. split; [exact H2 |]. rewrite Hlogs. reflexivity.
Defined.

(** X4 on the trial without a token. *)
Lemma cancel_subscription_twice_witness :
  let run := (cancel_subscription (env_of accept) "sub_2" "first" ;;
              cancel_subscription (env_of accept) "sub_2" "second") trial_world in
  fst run = Ok tt
  /\ status_of "sub_2" (snd run) = ["CANCELED"]
  /\ List.length (payment_logs (snd run)) = 2%nat.
Proof.
  cbn zeta.
  destruct (cancel_subscription_twice (env_of accept) S2 "first" "second" trial_world)
    as (H1 & H2 & _ & ev1 & ev2 & Hlogs & _).
  - apply (scenario_primary_key trial_world). right. reflexivity.
  - cbn. auto.
  - split; [exact H1 |]. split; [exact H2 |].
    change (sub_id S2) with "sub_2" in Hlogs. rewrite Hlogs. reflexivity.
Defined.

(** X6 on the due subscription of the test data when the gateway times
    out. *)
Lemma refused_renewal_leaves_pending_order_witness :
  let run := _process_subscription_renewal (env_of time_out) (row_of S1) billing_world in
  map order_status (orders (snd run)) = ["PENDING"]
  /\ In (row_of S1) (rows_of (get_due_subscriptions (env_of time_out)) (snd run)).
Proof.
  cbn zeta.
  destruct (refused_renewal_leaves_pending_order (env_of time_out) (row_of S1)
              billing_world)
    as (_ & Hord & _ & _ & Hdue).
  - exact clock_monotone.
  - cbn. auto.
  - vm_compute. reflexivity.
  - reflexivity.
  - split; [rewrite Hord; reflexivity | exact Hdue].
Defined.

(** X7 on the due subscription of the test data when the gateway
    accepts. *)
Lemma accepted_renewal_order_processing_witness :
  let run := _process_subscription_renewal (env_of accept) (row_of S1) billing_world in
  map order_status (orders (snd run)) = ["PROCESSING"]
  /\ map order_netopia_order_id (orders (snd run)) = [Some "G-order_0"].
Proof.
  cbn zeta.
  destruct (accepted_renewal_order_processing (env_of accept) (row_of S1)
              billing_world
              [("netopia_order_id", JStr "G-order_0"); ("status", JStr "PROCESSING")]
              (Some "G-order_0"))
    as (o & Hord & Hst & Hnid & _).
  - intros o [].
  - vm_compute. reflexivity.
  - reflexivity.
  - rewrite Hord. cbn [orders billing_world world_of app map].
    rewrite Hst, Hnid. split; reflexivity.
Defined.

(** X8 on the same renewal: the queue of the resulting state has no row
    for [sub_1]. *)
Lemma renewed_subscription_leaves_queue_witness :
  let w' := snd (_process_subscription_renewal (env_of accept) (row_of S1) billing_world) in
  ~ In "sub_1" (map (fun r => sub_id (row_sub r))
                    (rows_of (get_due_subscriptions (env_of accept)) w')).
Proof.
  cbn zeta. intros Hin. apply in_map_iff in Hin as (r' & Hid & Hr').
  revert r' Hr' Hid.
  apply (renewed_subscription_leaves_queue (env_of accept) (row_of S1) billing_world
           [("netopia_order_id", JStr "G-order_0"); ("status", JStr "PROCESSING")]
           (Some "G-order_0")).
  - vm_compute. reflexivity.
  - reflexivity.
  - reflexivity.
  - vm_compute. reflexivity.
Defined.

(** X19 on the due subscription of the test data when the gateway names
    its order by a number. *)
Lemma accepted_charge_with_refused_id_witness :
  let run := _process_subscription_renewal (env_of numeric_id) (row_of S1)
                                           billing_world in
  (exists e, fst run = Raise e /\ exc_class e = "DataError")
  /\ map order_status (orders (snd run)) = ["PENDING"]
  /\ subscriptions (snd run) = subscriptions billing_world
  /\ payment_logs (snd run) = [].
Proof.
  cbn zeta.
  destruct (accepted_charge_with_refused_id (env_of numeric_id) (row_of S1)
              billing_world
              [("netopia_order_id", JNum 12345); ("status", JStr "PROCESSING")])
    as (Hrun & _ & Hord & _ & Hsubs & Hlogs).
  - reflexivity.
  - reflexivity.
  - split; [eexists; split; [exact Hrun | reflexivity] |].
    split; [rewrite Hord; reflexivity |].
    split; [exact Hsubs | exact Hlogs].
Defined.

(** X9 on the trial that holds a token when the gateway times out. *)
Lemma trial_charge_failed_is_canceled_witness :
  let run := _process_trial_expiration (env_of time_out) (row_of S3) trial_world in
  fst run = Ok tt
  /\ status_of "sub_3" (snd run) = ["CANCELED"]
  /\ map order_status (orders (snd run)) = ["PENDING"].
Proof.
  cbn zeta.
  destruct (trial_charge_failed_is_canceled (env_of time_out) (row_of S3) trial_world)
    as (H1 & H2 & _ & _ & _ & Hord).
  - apply (scenario_primary_key trial_world). right. reflexivity.
  - cbn. auto.
  - reflexivity.
  - reflexivity.
  - split; [exact H1 |]. split; [exact H2 |]. rewrite Hord. reflexivity.
Defined.

(** X10 on the trial that holds a token, processed twice. *)
Lemma trial_charged_on_every_run_witness :
  let run := (_process_trial_expiration (env_of accept) (row_of S3) ;;
              _process_trial_expiration (env_of accept) (row_of S3)) trial_world in
  fst run = Ok tt
  /\ map charged_subscription (netopia_requests (snd run)) = ["sub_3"; "sub_3"].
Proof.
  cbn zeta.
  destruct (trial_charged_on_every_run (env_of accept) (row_of S3) (row_of S3)
              trial_world
              [("netopia_order_id", JStr "G-order_0"); ("status", JStr "PROCESSING")]
              [("netopia_order_id", JStr "G-order_8"); ("status", JStr "PROCESSING")]
              (Some "G-order_0") (Some "G-order_8"))
    as (H1 & (q1 & q2 & Hreq & Hq1 & Hq2) & _).
  - reflexivity.
  - vm_compute. reflexivity.
  - reflexivity.
  - reflexivity.
  - reflexivity.
  - vm_compute. reflexivity.
  - reflexivity.
  - split; [exact H1 |]. rewrite Hreq.
    cbn [netopia_requests trial_world world_of app map].
    rewrite Hq1, Hq2. reflexivity.
Defined.

(** X11 on the two due subscriptions when the gateway accepts. *)
Lemma billing_renews_whole_queue_witness :
  let run := process_recurring_billing (env_of accept) billing_world in
  fst run = Ok tt
  /\ map charged_subscription (netopia_requests (snd run)) = ["sub_1"; "sub_4"].
Proof.
  cbn zeta.
  destruct (billing_renews_whole_queue (env_of accept) billing_world)
    as (H1 & reqs & evs & Hreq & Hcharged & _).
  - intros r k _. apply accept_accepts.
  - split; [exact H1 |]. rewrite Hreq.
    cbn [netopia_requests billing_world world_of app]. rewrite Hcharged.
    vm_compute. reflexivity.
Defined.

(** X12 on the two due subscriptions when the card of the second one is
    declined. *)
Lemma billing_stops_at_first_refusal_witness :
  let run := process_recurring_billing (env_of decline_sub_4) billing_world in
  fst run = Ok tt
  /\ map pl_status (payment_logs (snd run)) = [Some "SUCCESS"].
Proof.
  cbn zeta.
  destruct (billing_stops_at_first_refusal (env_of decline_sub_4) billing_world
              [row_of S1] [] (row_of S4))
    as (H1 & reqs & evs & _ & _ & Hlogs & Hst & _).
  - vm_compute. reflexivity.
  - intros r' k [<- | []]. reflexivity.
  - intros k. reflexivity.
  - split; [exact H1 |]. rewrite Hlogs.
    cbn [payment_logs billing_world world_of app]. exact Hst.
Defined.

(** X2 on the failed payment of the test data, with the default limit of
    three attempts. *)
Lemma get_failed_payments_selects_witness :
  let rows := rows_of (get_failed_payments (env_of accept) default_config)
                      retry_world in
  fits_integer_column (max_retry_attempts default_config)
  /\ (forall p, In p rows -> fp_retry_count p < 3)
  /\ exists p, In p rows /\ fp_order p = O1 /\ fp_retry_count p = 1.
Proof.
  cbn zeta.
  assert (Hfits : fits_integer_column (max_retry_attempts default_config))
    by (unfold fits_integer_column; cbn; lia).
  destruct (get_failed_payments_selects (env_of accept) default_config
              retry_world Hfits)
    as (Hsel & Hall & _).
  split; [exact Hfits |]. split.
  - intros p Hp. apply Hsel in Hp as (_ & Hcount & _). exact Hcount.
  - destruct (Hall E1 O1) as (p & Hp & Ho & Hc & _).
    + left. reflexivity.
    + left. reflexivity.
    + reflexivity.
    + reflexivity.
    + cbn. lia.
    + change (clock 0 - 24 * 3600 <= t0 - hours 2). unfold clock, hours. lia.
    + exists p. auto.
Defined.

(** X15 on the failed payment of the test data. *)
Lemma retried_event_stays_eligible_witness :
  In P1 (rows_of (get_failed_payments (env_of accept) default_config)
                 (snd (process_payment_retries (env_of accept) default_config
                         retry_world))).
Proof.
  apply (retried_event_stays_eligible (env_of accept) default_config retry_world P1).
  - vm_compute. auto.
  - vm_compute. discriminate.
Defined.

(** X16 on a process without any environment variable. *)
Lemma main_without_credentials_witness :
  fst (main unconfigured (env_of accept) billing_world) = Ok 1
  /\ ticks (snd (main unconfigured (env_of accept) billing_world)) = 0%nat.
Proof.
  destruct (main_without_credentials unconfigured (env_of accept) billing_world)
    as (H1 & _ & _ & _ & _ & _ & H2 & _).
  - right. right. left. reflexivity.
  - split; [exact H1 | exact H2].
Defined.

(** X17 on a process holding the three credentials, with a gateway that
    times out. *)
Lemma main_exits_zero_after_jobs_witness :
  fst (main configured (env_of time_out) billing_world) = Ok 0.
Proof.
  destruct (load_config configured) as [c | e] eqn:E; [| discriminate E].
  rewrite (main_exits_zero_after_jobs configured (env_of time_out) billing_world c E).
  - reflexivity.
  - vm_compute in E. injection E as <-. discriminate.
  - vm_compute in E. injection E as <-. discriminate.
  - vm_compute in E. injection E as <-. discriminate.
  - reflexivity.
Defined.

(** * What a run never does *)

Lemma row_evolves_refl (s : Subscription) : row_evolves s s.
Proof. split; auto. Qed.

Lemma row_evolves_trans (a b c : Subscription) :
  row_evolves a b -> row_evolves b c -> row_evolves a c.
Proof.
  intros [Hab Sab] [Hbc Sbc]. split; [congruence |].
  destruct Sbc as [Sbc | Sbc]; [| auto].
  destruct Sab as [Sab | Sab]; [left | right]; congruence.
Qed.

Lemma rows_evolve_refl (l : list Subscription) : Forall2 row_evolves l l.
Proof. induction l; constructor; auto using row_evolves_refl. Qed.

Lemma rows_evolve_trans (l1 l2 l3 : list Subscription) :
  Forall2 row_evolves l1 l2 -> Forall2 row_evolves l2 l3 ->
  Forall2 row_evolves l1 l3.
Proof.
  intros H12. revert l3. induction H12 as [| a b l1 l2 Hab _ IH]; intros l3 H23.
  - inversion H23. constructor.
  - inversion H23 as [| ? c ? l3' Hbc H23']; subst.
    constructor; [eapply row_evolves_trans; eassumption | apply IH, H23'].
Qed.

Lemma rows_evolve_update (p : Subscription -> bool)
      (f : Subscription -> Subscription) (l : list Subscription) :
  (forall s, row_evolves s (f s)) ->
  Forall2 row_evolves l (map (fun s => if p s then f s else s) l).
Proof.
  intros Hf. induction l as [| s l IH]; cbn; constructor; [| exact IH].
  destruct (p s); [apply Hf | apply row_evolves_refl].
Qed.

Lemma evolves_refl (w : World) : evolves w w.
Proof.
  split; [apply rows_evolve_refl |]. split; [| reflexivity].
  exists []. now rewrite app_nil_r.
Qed.

Lemma evolves_trans (w1 w2 w3 : World) :
  evolves w1 w2 -> evolves w2 w3 -> evolves w1 w3.
Proof.
  intros (Hs12 & (n12 & Hl12) & Ht12) (Hs23 & (n23 & Hl23) & Ht23).
  split; [eapply rows_evolve_trans; eassumption |].
  split; [| congruence].
  exists (n12 ++ n23)%list. now rewrite Hl23, Hl12, app_assoc.
Qed.

Lemma evolves_same (w w' : World) :
  subscriptions w' = subscriptions w ->
  payment_logs w' = payment_logs w ->
  subscription_tiers w' = subscription_tiers w ->
  evolves w w'.
Proof.
  intros Hs Hl Ht. split; [rewrite Hs; apply rows_evolve_refl |].
  split; [| exact Ht]. exists []. now rewrite app_nil_r.
Qed.

Lemma Preserves_ret {A} (a : A) : Preserves (ret a).
Proof. intros w. apply evolves_refl. Qed.

Lemma Preserves_raise {A} (e : PyExc) : Preserves (@raise A e).
Proof. intros w. apply evolves_refl. Qed.

Lemma Preserves_logger_info (msg : string) : Preserves (logger_info msg).
Proof. intros w. now apply evolves_same. Qed.

Lemma Preserves_logger_error (msg : string) : Preserves (logger_error msg).
Proof. intros w. now apply evolves_same. Qed.

Lemma Preserves_bind {A B} (m : M A) (k : A -> M B) :
  Preserves m -> (forall a, Preserves (k a)) -> Preserves (bind m k).
Proof.
  intros Hm Hk w. unfold bind. specialize (Hm w).
  destruct (m w) as [[a | e] w1]; cbn [snd] in *; [| exact Hm].
  eapply evolves_trans; [exact Hm | apply Hk].
Qed.

Lemma Preserves_try_except {A} (m : M A) (h : PyExc -> M A) :
  Preserves m -> (forall e, Preserves (h e)) -> Preserves (try_except m h).
Proof.
  intros Hm Hh w. unfold try_except. specialize (Hm w).
  destruct (m w) as [[a | e] w1]; cbn [snd] in *; [exact Hm |].
  eapply evolves_trans; [exact Hm | apply Hh].
Qed.

Lemma Preserves_for_each {A} (xs : list A) (body : A -> M unit) :
  (forall x, Preserves (body x)) -> Preserves (for_each xs body).
Proof.
  intros Hbody. induction xs as [| x xs IH]; cbn [for_each].
  - apply Preserves_ret.
  - apply Preserves_bind; [apply Hbody | intros _; exact IH].
Qed.

Section PreservesCron.

Variable env : Env.

Lemma Preserves_datetime_now : Preserves (datetime_now env).
Proof. intros w. now apply evolves_same. Qed.

Lemma Preserves_session_post (req : PostRequest) :
  Preserves (session_post env req).
Proof. intros w. now apply evolves_same. Qed.

Lemma Preserves_get_due_subscriptions : Preserves (get_due_subscriptions env).
Proof. intros w. now apply evolves_same. Qed.

Lemma Preserves_get_trial_subscriptions :
  Preserves (get_trial_subscriptions env).
Proof. intros w. now apply evolves_same. Qed.

Lemma Preserves_get_failed_payments (config : Config) :
  Preserves (get_failed_payments env config).
Proof. intros w. now apply evolves_same. Qed.

Lemma Preserves_create_renewal_order (r : SubscriptionRow) (amount : Z) :
  Preserves (create_renewal_order env r amount).
Proof. intros w. now apply evolves_same. Qed.

Lemma Preserves_update_order_status (oid status : string)
      (nid : option Json) :
  Preserves (update_order_status env oid status nid).
Proof.
  intros w. unfold update_order_status.
  destruct (text_param env 3 nid); [now apply evolves_same | apply evolves_refl].
Qed.

Lemma Preserves_dict_get (v : Json) (k : string) : Preserves (dict_get v k).
Proof. destruct v; first [apply Preserves_raise | apply Preserves_ret]. Qed.

Lemma Preserves_update_subscription_period (id : string) (t : Z) :
  Preserves (update_subscription_period env id t).
Proof.
  intros w. split; [| split; [exists []; cbn; now rewrite app_nil_r | reflexivity]].
  cbn. apply rows_evolve_update. intros s. split; [reflexivity | now left].
Qed.

Lemma Preserves_log_payment_event (ev : EventData) :
  Preserves (log_payment_event env ev).
Proof.
  intros w. unfold log_payment_event.
  destruct (json_dumps _) as [doc | e]; cbn [snd]; [| apply evolves_refl].
  destruct (text_param env 4 _) as [nid | e]; cbn [snd]; [| apply evolves_refl].
  split; [apply rows_evolve_refl |]. split; [| reflexivity].
  eexists. reflexivity.
Qed.

Lemma Preserves_cancel_subscription (id reason : string) :
  Preserves (cancel_subscription env id reason).
Proof.
  unfold cancel_subscription.
  apply Preserves_bind; [| intros _; apply Preserves_bind;
                           [| intros _; apply Preserves_log_payment_event]].
  - intros w. split; [| split; [exists []; cbn; now rewrite app_nil_r | reflexivity]].
    cbn. apply rows_evolve_update. intros s. split; [reflexivity | now right].
  - intros w. destruct (filter _ _) as [| s [| s' l]]; now apply evolves_same.
Qed.

Lemma Preserves_create_recurring_payment (od : OrderData) :
  Preserves (create_recurring_payment env od).
Proof.
  unfold create_recurring_payment.
  apply Preserves_try_except.
  - apply Preserves_bind; [apply Preserves_datetime_now | intros t1].
    apply Preserves_bind; [apply Preserves_datetime_now | intros t2].
    apply Preserves_bind; [apply Preserves_session_post | intros o].
    destruct o as [e | st e | st body];
      [apply Preserves_raise | apply Preserves_raise |].
    destruct (negb (st =? 200)); [| apply Preserves_ret].
    destruct body; apply Preserves_raise.
  - intros e. apply Preserves_bind;
      [apply Preserves_logger_error | intros _; apply Preserves_raise].
Qed.

Lemma Preserves_renewal (r : SubscriptionRow) :
  Preserves (_process_subscription_renewal env r).
Proof.
  unfold _process_subscription_renewal. cbn zeta.
  apply Preserves_bind; [apply Preserves_logger_info | intros _].
  apply Preserves_try_except.
  - apply Preserves_bind; [apply Preserves_create_renewal_order | intros oid].
    apply Preserves_bind; [apply Preserves_logger_info | intros _].
    apply Preserves_bind; [apply Preserves_create_recurring_payment | intros res].
    apply Preserves_bind; [apply Preserves_dict_get | intros nid].
    apply Preserves_bind; [apply Preserves_update_order_status | intros _].
    apply Preserves_bind.
    { destruct (String.eqb (row_interval r) "MONTHLY");
        [| destruct (String.eqb (row_interval r) "YEARLY")];
        (apply Preserves_bind; [apply Preserves_datetime_now
                               | intros t; apply Preserves_ret]). }
    intros t.
    apply Preserves_bind; [apply Preserves_update_subscription_period | intros _].
    apply Preserves_bind; [apply Preserves_dict_get | intros logged].
    apply Preserves_bind; [apply Preserves_log_payment_event | intros _].
    apply Preserves_logger_info.
  - intros e. apply Preserves_bind;
      [apply Preserves_logger_error | intros _; apply Preserves_raise].
Qed.

Lemma Preserves_process_recurring_billing :
  Preserves (process_recurring_billing env).
Proof.
  unfold process_recurring_billing.
  apply Preserves_bind; [apply Preserves_logger_info | intros _].
  apply Preserves_try_except; [| intros e; apply Preserves_logger_error].
  apply Preserves_bind; [apply Preserves_get_due_subscriptions | intros rows].
  apply Preserves_bind; [apply Preserves_logger_info | intros _].
  apply Preserves_for_each. intros r.
  apply Preserves_try_except; [apply Preserves_renewal | intros e].
  apply Preserves_bind; [apply Preserves_logger_error | intros _].
  apply Preserves_log_payment_event.
Qed.

Lemma Preserves_trial_expiration (r : SubscriptionRow) :
  Preserves (_process_trial_expiration env r).
Proof.
  unfold _process_trial_expiration. cbn zeta.
  apply Preserves_bind; [apply Preserves_logger_info | intros _].
  destruct (no_token r).
  - apply Preserves_bind; [apply Preserves_cancel_subscription | intros _].
    apply Preserves_logger_info.
  - apply Preserves_try_except.
    + apply Preserves_bind; [apply Preserves_renewal | intros _].
      apply Preserves_logger_info.
    + intros e.
      apply Preserves_bind; [apply Preserves_cancel_subscription | intros _].
      apply Preserves_logger_info.
Qed.

Lemma Preserves_process_trial_periods :
  Preserves (process_trial_periods env).
Proof.
  unfold process_trial_periods.
  apply Preserves_bind; [apply Preserves_logger_info | intros _].
  apply Preserves_try_except; [| intros e; apply Preserves_logger_error].
  apply Preserves_bind; [apply Preserves_get_trial_subscriptions | intros rows].
  apply Preserves_bind; [apply Preserves_logger_info | intros _].
  apply Preserves_for_each. intros r.
  apply Preserves_try_except;
    [apply Preserves_trial_expiration | intros e; apply Preserves_logger_error].
Qed.

Lemma Preserves_retry_payment (p : FailedPayment) :
  Preserves (_retry_payment env p).
Proof.
  unfold _retry_payment. cbn zeta.
  apply Preserves_bind; [apply Preserves_logger_info | intros _].
  apply Preserves_try_except.
  - apply Preserves_bind; [apply Preserves_log_payment_event | intros _].
    apply Preserves_logger_info.
  - intros e. apply Preserves_bind;
      [apply Preserves_logger_error | intros _; apply Preserves_raise].
Qed.

Lemma Preserves_process_payment_retries (config : Config) :
  Preserves (process_payment_retries env config).
Proof.
  unfold process_payment_retries.
  apply Preserves_bind; [apply Preserves_logger_info | intros _].
  apply Preserves_try_except; [| intros e; apply Preserves_logger_error].
  apply Preserves_bind; [apply Preserves_get_failed_payments | intros rows].
  apply Preserves_bind; [apply Preserves_logger_info | intros _].
  apply Preserves_for_each. intros p.
  apply Preserves_try_except;
    [apply Preserves_retry_payment | intros e; apply Preserves_logger_error].
Qed.

Lemma Preserves_run_all_jobs (config : Config) :
  Preserves (run_all_jobs env config).
Proof.
  unfold run_all_jobs.
  apply Preserves_bind; [apply Preserves_logger_info | intros _].
  apply Preserves_try_except.
  - apply Preserves_bind; [apply Preserves_process_recurring_billing | intros _].
    apply Preserves_bind; [apply Preserves_process_trial_periods | intros _].
    apply Preserves_bind; [apply Preserves_process_payment_retries | intros _].
    apply Preserves_logger_info.
  - intros e. apply Preserves_bind;
      [apply Preserves_logger_error | intros _; apply Preserves_raise].
Qed.

End PreservesCron.

(** X18. Whatever the gateway and the clocks do, a run of all jobs neither
    adds nor removes a subscription and never changes the id, user, tier,
    [auto_renew], [trial_end] or token of one; the only status it ever
    writes is CANCELED (no subscription becomes ACTIVE or TRIALING); the
    tiers are untouched; and the payment log only grows at its end, every
    stored event staying as it was. *)
Theorem run_never_rewrites_history (env : Env) (config : Config) (w : World) :
  let w' := snd (run_all_jobs env config w) in
  Forall2 (fun s s' =>
             stable_columns s' = stable_columns s
             /\ (sub_status s' = sub_status s \/ sub_status s' = "CANCELED"))
          (subscriptions w) (subscriptions w')
  /\ (exists new, payment_logs w' = (payment_logs w ++ new)%list)
  /\ subscription_tiers w' = subscription_tiers w.
Proof. exact (Preserves_run_all_jobs env config w). Qed.
